(** * patient_record: the ETL pipeline of [run.py]

    A shallow embedding of [extract], [transform], [load] and [main].

    Conventions of the embedding.
    - A pandas float64 column is a [list (option Q)]: [None] is NaN, and a
      number is the rational a double denotes.  Every arithmetic operation
      is the exact one followed by [float64], the rounding to the nearest
      double (ties to even); sums and means follow the order in which numpy
      and pandas add.  Doubles beyond the largest finite one (infinities)
      are not represented.
    - Instants (a [Timestamp], [datetime.now()]) are integers, in nanoseconds
      since the epoch; [NaT] is [None].
    - [pd.to_datetime(..., errors='coerce')] on one string is the section
      variable [parse_datetime]; every result holds for every parser.
    - Console output, the wall clock and the effects on files, the network
      and MongoDB are an explicit [World]; what the outside answers is an
      [Env].  Python exceptions are the [Raise] outcome of the monad [M]. *)

From Stdlib Require Import List ZArith QArith Qround Qabs String Ascii Bool Lia.
From Stdlib Require Import Sorted OrderedTypeEx.
Import ListNotations.

Local Open Scope string_scope.
Local Open Scope list_scope.
Local Open Scope Z_scope.

(** ** Numbers: float64 arithmetic, NaN-aware sums, means and rounding *)

Definition dropna {A : Type} (x : list (option A)) : list A :=
  flat_map (fun v => match v with Some a => [a] | None => [] end) x.

(** [Series.count()]: the number of non-null cells. *)
Definition count {A : Type} (x : list (option A)) : Z :=
  Z.of_nat (List.length (dropna x)).

(** [Series.fillna(value)] where [value] may itself be NaN. *)
Definition fillna (value : option Q) (x : list (option Q)) : list (option Q) :=
  map (fun v => match v with Some b => Some b | None => value end) x.

(** A cell as a summand: NaN counts as 0. *)
Definition or_zero (v : option Q) : Q :=
  match v with Some b => b | None => 0%Q end.

(** Nearest integer, ties to the even one ([rint]). *)
Definition rint (x : Q) : Z :=
  let f := Qfloor x in
  match (x - inject_Z f ?= 1 # 2)%Q with
  | Lt => f
  | Gt => f + 1
  | Eq => if Z.even f then f else f + 1
  end.

(** *** Doubles *)

Definition pow2 (k : Z) : Q :=
  if 0 <=? k then inject_Z (2 ^ k) else Qmake 1 (Z.to_pos (2 ^ (- k))).

(** The binary exponent of a number other than 0: [2^e <= |x| < 2^(e+1)]. *)
Definition ilog2 (x : Q) : Z :=
  let e := Z.log2 (Z.abs (Qnum x)) - Z.log2 (Zpos (Qden x)) in
  if Qle_bool (pow2 e) (Qabs x) then e else e - 1.

(** The double nearest to [x], ties to even: 53 significant bits, and
    steps of [2^-1074] below the normal range.  The result is in lowest
    terms. *)
Definition float64 (x : Q) : Q :=
  if Qeq_bool x 0 then 0%Q
  else
    let k := Z.max (ilog2 x - 52) (-1074) in
    Qred (inject_Z (rint (x / pow2 k)) * pow2 k).

Definition fadd (x y : Q) : Q := float64 (x + y).
Definition fsub (x y : Q) : Q := float64 (x - y).
Definition fmul (x y : Q) : Q := float64 (x * y).
Definition fdiv (x y : Q) : Q := float64 (x / y).

(** *** [ndarray.sum()]: numpy's pairwise summation *)

(** [res += a[i]] over the rest of a block. *)
Definition add_all (res : Q) (a : list Q) : Q := fold_left fadd a res.

(** [r[j] += a[i + j]] for the next [blocks] blocks of 8. *)
Fixpoint add_blocks (blocks : nat) (r a : list Q) : list Q * list Q :=
  match blocks with
  | O => (r, a)
  | S b =>
      add_blocks b (map (fun rv => fadd (fst rv) (snd rv))
                        (combine r (firstn 8 a)))
                 (skipn 8 a)
  end.

(** A block of 8 to 128 numbers: 8 accumulators, added in pairs, then the
    numbers left over. *)
Definition unrolled_sum (a : list Q) : Q :=
  let (r, rest) := add_blocks (List.length a / 8 - 1) (firstn 8 a) (skipn 8 a) in
  match r with
  | [r0; r1; r2; r3; r4; r5; r6; r7] =>
      add_all (fadd (fadd (fadd r0 r1) (fadd r2 r3))
                    (fadd (fadd r4 r5) (fadd r6 r7)))
              rest
  | _ => 0%Q
  end.

Fixpoint pairwise_sum (fuel : nat) (a : list Q) : Q :=
  let n := List.length a in
  if (n <? 8)%nat then add_all 0%Q a
  else if (n <=? 128)%nat then unrolled_sum a
  else
    match fuel with
    | O => unrolled_sum a
    | S f =>
        let n2 := (n / 2 - (n / 2) mod 8)%nat in
        fadd (pairwise_sum f (firstn n2 a)) (pairwise_sum f (skipn n2 a))
    end.

Definition np_sum (a : list Q) : Q := pairwise_sum (List.length a) a.

(** [Series.mean()] ([nanops.nanmean], without bottleneck): NaN is put to
    0, the array is summed and divided by the number of non-null cells;
    the mean of nothing is NaN. *)
Definition mean (x : list (option Q)) : option Q :=
  match dropna x with
  | [] => None
  | _ :: _ => Some (fdiv (np_sum (map or_zero x)) (inject_Z (count x)))
  end.

(** *** The group-by kernels: Kahan summation *)

(** One step of [group_sum] and [group_mean] on a non-null value. *)
Definition kahan_step (state : Q * Q) (val : Q) : Q * Q :=
  let (sumx, compensation) := state in
  let y := fsub val compensation in
  let t := fadd sumx y in
  (t, fsub (fsub t sumx) y).

Definition kahan (vals : list Q) : Q :=
  fst (fold_left kahan_step vals (0%Q, 0%Q)).

(** The ['sum'] aggregation: NaN is skipped, the empty sum is 0. *)
Definition sum (x : list (option Q)) : Q := kahan (dropna x).

(** The ['mean'] aggregation: NaN is skipped, the mean of nothing is NaN. *)
Definition group_mean (x : list (option Q)) : option Q :=
  match dropna x with
  | [] => None
  | v :: vs => Some (fdiv (kahan (v :: vs)) (inject_Z (count x)))
  end.

(** *** Rounding *)

(** [round(2)] on one number: [rint(x * 100) / 100]. *)
Definition round2 (x : Q) : Q := fdiv (inject_Z (rint (fmul x 100))) 100.

(** [Series.round(2)]: NaN stays NaN. *)
Definition round (x : option Q) : option Q := option_map round2 x.

(** [astype(int)] on one float: the fraction is dropped (towards zero). *)
Definition astype_int (x : Q) : Z := Z.quot (Qnum x) (Zpos (Qden x)).

(** ** Dates and ages *)

Definition day_ns : Z := 86400 * 1000000000.

(** [(today - dob).dt.days]: whole days of a timedelta, rounded down. *)
Definition dt_days (today dob : Z) : Z := (today - dob) / day_ns.

(** [(today - dob).dt.days / 365.25]; NaT gives NaN.  The quotient is
    kept exact: 365.25 is a binary fraction and a day count is far below
    2^53, so the float quotient is within one rounding of [4 * days / 1461]
    and never on the other side of an integer from it. *)
Definition age_years (today : Z) (dob : option Z) : option Q :=
  option_map (fun t => inject_Z (dt_days today t) / (36525 # 100))%Q dob.

(** [.fillna(0).astype(int)] on one cell. *)
Definition age_of (today : Z) (dob : option Z) : Z :=
  astype_int (match age_years today dob with Some a => a | None => 0%Q end).

(** ** Tables *)

(** The raw dataset: one record per row, [None] for an empty cell.  The
    labels in [columns] say which columns the table has; a field of a
    column that is not there is not part of the table. *)
Module Raw.
Record Row := mkRow {
  patient_id : option Z;
  department : option string;
  dob : option string;
  billing_amount : option Q;
  passthrough : list string
}.
Record DataFrame := mkDF { columns : list string; rows : list Row }.
End Raw.

(** The cleaned dataset: [dob] is a datetime column, [age] an int column. *)
Module Clean.
Record Row := mkRow {
  patient_id : option Z;
  department : option string;
  dob : option Z;
  billing_amount : option Q;
  age : Z;
  passthrough : list string
}.
Record DataFrame := mkDF { columns : list string; rows : list Row }.

Definition set_billing (r : Row) (b : option Q) : Row :=
  mkRow (patient_id r) (department r) (dob r) b (age r) (passthrough r).
End Clean.

(** The department summary, after [reset_index()]. *)
Module Summary.
Record Row := mkRow {
  department : string;
  number_of_patients : Z;
  total_revenue : Q;
  average_billing : option Q
}.
Definition DataFrame := list Row.

Definition set_average (r : Row) (a : option Q) : Row :=
  mkRow (department r) (number_of_patients r) (total_revenue r) a.
End Summary.

Definition has_column (name : string) (columns : list string) : bool :=
  existsb (String.eqb name) columns.

(** [df[name] = ...]: an existing column keeps its place, a new one goes
    last. *)
Definition set_column (name : string) (columns : list string) : list string :=
  if has_column name columns then columns else columns ++ [name].

(** ** Group-by *)

Definition key_is (k : string) (key : option string) : bool :=
  match key with Some k' => String.eqb k' k | None => false end.

(** Keeps a list of keys sorted and free of repeats. *)
Fixpoint insert_key (k : string) (ks : list string) : list string :=
  match ks with
  | [] => [k]
  | h :: t =>
      match String.compare k h with
      | Eq => ks
      | Lt => k :: ks
      | Gt => h :: insert_key k t
      end
  end.

(** The groups of [groupby(key)]: the distinct non-null keys, sorted
    ([sort=True], [dropna=True]). *)
Definition group_keys (keys : list (option string)) : list string :=
  fold_right insert_key [] (dropna keys).

(** A column with the row positions it came from. *)
Definition indexed {A : Type} (x : list A) : list (nat * A) :=
  combine (seq 0 (List.length x)) x.

(** The rows of group [k]: positions and values, in row order. *)
Definition group_of {A : Type} (k : string) (keys : list (option string))
    (x : list A) : list (nat * A) :=
  map (fun e => (fst e, snd (snd e)))
      (filter (fun e => key_is k (fst (snd e))) (indexed (combine keys x))).

Fixpoint lookup_pos {A : Type} (i : nat) (s : list (nat * A)) : option A :=
  match s with
  | [] => None
  | (j, v) :: t => if Nat.eqb i j then Some v else lookup_pos i t
  end.

(** [SeriesGroupBy.transform(func)]: [func] runs on each group's values,
    the pieces are concatenated, put back at the positions they came from,
    and a row whose key is null (it is in no group) gets NaN, as pandas
    does from version 1.5 on. *)
Definition groupby_transform (func : list (option Q) -> list (option Q))
    (keys : list (option string)) (x : list (option Q)) : list (option Q) :=
  let results :=
    flat_map (fun k =>
                let g := group_of k keys x in
                combine (map fst g) (func (map snd g)))
             (group_keys keys) in
  map (fun i => match lookup_pos i results with Some v => v | None => None end)
      (seq 0 (List.length x)).

(** [DataFrameGroupBy.agg] with the three named aggregations, then
    [reset_index()]: one row per group, in key order. *)
Definition groupby_agg (rows : list Clean.Row) : Summary.DataFrame :=
  map (fun k =>
         let g := filter (fun r => key_is k (Clean.department r)) rows in
         Summary.mkRow k
           (count (map Clean.patient_id g))
           (sum (map Clean.billing_amount g))
           (group_mean (map Clean.billing_amount g)))
      (group_keys (map Clean.department rows)).

(** ** The outside world *)

(** The exceptions the program can meet; all are subclasses of
    [Exception]. *)
Inductive Exn :=
| FileNotFoundError (msg : string)
| KeyError (key : string)
| IndexError (msg : string)
| TypeError (msg : string)
| HTTPError (msg : string)
| OtherException (msg : string).

(** [str(e)] *)
Definition exn_str (e : Exn) : string :=
  match e with
  | FileNotFoundError m | IndexError m | TypeError m
  | HTTPError m | OtherException m => m
  | KeyError k => "'" ++ k ++ "'"
  end.

(** Any of the three tables, as a loader or a file writer receives it. *)
Inductive Frame :=
| RawFrame (df : Raw.DataFrame)
| CleanFrame (df : Clean.DataFrame)
| SummaryFrame (df : Summary.DataFrame).

(** What the program does to the outside. *)
Inductive Effect :=
| MakeDirs (path : string)
| ReadCsv (location : string)
| HttpGet (url : string)
| ToCsv (path : string) (data : Frame)
| MongoConnect (uri : string)
| DeleteMany (db collection : string)
| InsertMany (db collection : string) (data : Frame).

(** Writing a snapshot file or replacing a collection. *)
Definition is_persistence (e : Effect) : bool :=
  match e with
  | ToCsv _ _ | MongoConnect _ | DeleteMany _ _ | InsertMany _ _ _ => true
  | MakeDirs _ | ReadCsv _ | HttpGet _ => false
  end.

Record World := mkWorld {
  clock : Z;
  console : list string;
  effects : list Effect
}.

Record Response := mkResponse { status_code : Z; body : string }.

(** The answers of the outside: what a path or URL reads as, what a GET
    returns, what a body decodes to ([response.json()] then
    [pd.DataFrame(...)]), and whether a write fails. *)
Record Env := mkEnv {
  read_csv_result : string -> Exn + Raw.DataFrame;
  get_result : string -> Exn + Response;
  records_result : string -> Exn + Raw.DataFrame;
  write_fault : Effect -> option Exn
}.

(** ** The monad of the program: state and exceptions *)

Inductive Outcome (A : Type) :=
| Ok (a : A)
| Raise (e : Exn).
Arguments Ok {A} a.
Arguments Raise {A} e.

Definition M (A : Type) : Type := World -> Outcome A * World.

Definition ret {A : Type} (a : A) : M A := fun w => (Ok a, w).

Definition raise {A : Type} (e : Exn) : M A := fun w => (Raise e, w).

Definition bind {A B : Type} (m : M A) (f : A -> M B) : M B :=
  fun w => match m w with
           | (Ok a, w') => f a w'
           | (Raise e, w') => (Raise e, w')
           end.

(** [try: m  except Exception as e: handler e] *)
Definition try_except {A : Type} (m : M A) (handler : Exn -> M A) : M A :=
  fun w => match m w with
           | (Ok a, w') => (Ok a, w')
           | (Raise e, w') => handler e w'
           end.

Notation "x <- m ;; k" := (bind m (fun x => k))
  (at level 61, m at next level, right associativity).
Notation "m ;;; k" := (bind m (fun _ => k))
  (at level 61, right associativity).

Definition print (line : string) : M unit :=
  fun w => (Ok tt, mkWorld (clock w) (console w ++ [line]) (effects w)).

Definition datetime_now : M Z := fun w => (Ok (clock w), w).

Definition log_effect (e : Effect) : M unit :=
  fun w => (Ok tt, mkWorld (clock w) (console w) (effects w ++ [e])).

(** [df[name]] and its kin: KeyError when the column is not there. *)
Definition require_column (name : string) (columns : list string) : M unit :=
  if has_column name columns then ret tt else raise (KeyError name).

(** Text of an f-string. *)
Definition fstr (parts : list string) : string := String.concat "" parts.

(** ** Configuration *)

(** The [config] dictionary: a fixed set of keys, so a record.  The
    connection string of [config] below stands for the one in the source,
    which carries credentials; the program only passes it on. *)
Record Config := mkConfig {
  source : string;
  local_patient_data_path : string;
  patient_data_url : string;
  api_url : string;
  raw_data_dir : string;
  processed_data_dir : string;
  patients_csv_file : string;
  processed_patients_file : string;
  processed_department_summary_file : string;
  mongo_db_uri : string;
  lake_db_name : string;
  lake_patients_collection : string;
  warehouse_db_name : string;
  warehouse_patients_collection : string;
  warehouse_department_summary_collection : string
}.

Definition config : Config := {|
  source := "local_csv";
  local_patient_data_path := "./data/raw/patients_data.csv";
  patient_data_url := "https://gist.githubusercontent.com/gmaheswaranmca/298eb53d2673999551c6c58e17814a2f/raw/e3328e1b621e25779c16d00070281b674b01e74f/patients.csv";
  api_url := "http://localhost:5000/patients";
  raw_data_dir := "./data/raw/";
  processed_data_dir := "./data/processed/";
  patients_csv_file := "./data/raw/patients.csv";
  processed_patients_file := "./data/processed/patients_clean.csv";
  processed_department_summary_file := "./data/processed/department_summary.csv";
  mongo_db_uri := "mongodb+srv://cluster0.example.net/";
  lake_db_name := "healthcare_lake_db";
  lake_patients_collection := "patients";
  warehouse_db_name := "healthcare_warehouse_db";
  warehouse_patients_collection := "patients_clean";
  warehouse_department_summary_collection := "department_summary"
|}.

(** ** The program *)

Section Program.

(** [pd.to_datetime(s, errors='coerce')] on one string: the instant, or
    NaT when the text is not a date. *)
Variable parse_datetime : string -> option Z.

Variable env : Env.

(** *** Calls into the outside *)

(** A write: it raises when the outside says so, and is recorded when it
    went through. *)
Definition perform (e : Effect) : M unit :=
  match write_fault env e with
  | Some x => raise x
  | None => log_effect e
  end.

Definition of_result {A : Type} (r : Exn + A) : M A :=
  match r with
  | inl e => raise e
  | inr a => ret a
  end.

Definition pd_read_csv (location : string) : M Raw.DataFrame :=
  log_effect (ReadCsv location) ;;;
  of_result (read_csv_result env location).

Definition requests_get (url : string) : M Response :=
  log_effect (HttpGet url) ;;;
  of_result (get_result env url).

Definition raise_for_status (response : Response) : M unit :=
  if (400 <=? status_code response) && (status_code response <? 600)
  then raise (HTTPError "bad status")
  else ret tt.

(** [pd.DataFrame(response.json())] *)
Definition response_records (response : Response) : M Raw.DataFrame :=
  of_result (records_result env (body response)).

(** *** Utility *)

Definition setup_directories (config : Config) : M unit :=
  perform (MakeDirs (raw_data_dir config)) ;;;
  perform (MakeDirs (processed_data_dir config)) ;;;
  print "Data directories are set up.".

(** *** Extract *)

Definition extract (config : Config) : M (option Raw.DataFrame) :=
  let source := source config in
  print (fstr ["Attempting to extract data from source: '"; source; "'"]) ;;;
  if String.eqb source "local_csv" then
    let path := local_patient_data_path config in
    try_except
      (df <- pd_read_csv path ;;
       print (fstr ["Successfully extracted patient data from local file: "; path]) ;;;
       ret (Some df))
      (fun e =>
         match e with
         | FileNotFoundError _ =>
             print (fstr ["Error: Local file not found at "; path;
                          ". Please ensure the file exists."]) ;;;
             ret None
         | _ =>
             print (fstr ["Error reading local file "; path; ": "; exn_str e]) ;;;
             ret None
         end)
  else if String.eqb source "csv" then
    let url := patient_data_url config in
    try_except
      (df <- pd_read_csv url ;;
       print "Successfully extracted patient data from CSV URL." ;;;
       ret (Some df))
      (fun e =>
         print (fstr ["Error extracting data from "; url; ": "; exn_str e]) ;;;
         ret None)
  else if String.eqb source "api" then
    let url := api_url config in
    try_except
      (response <- requests_get url ;;
       raise_for_status response ;;;
       df <- response_records response ;;
       print (fstr ["Successfully extracted patient data from API: "; url]) ;;;
       ret (Some df))
      (fun e =>
         print (fstr ["Error extracting data from API "; url; ": "; exn_str e]) ;;;
         ret None)
  else ret None.

(** *** Transform *)

Definition to_datetime (cell : option string) : option Z :=
  match cell with
  | Some s => parse_datetime s
  | None => None
  end.

(** Lines 93 to 99 on one row: the copy, [dob] parsed, [age] derived.
    [billing_amount] is a float64 column: an amount stands for the double
    nearest to it (itself, when it is a double). *)
Definition with_age (today : Z) (r : Raw.Row) : Clean.Row :=
  let dob := to_datetime (Raw.dob r) in
  Clean.mkRow (Raw.patient_id r) (Raw.department r) dob
              (option_map float64 (Raw.billing_amount r))
              (age_of today dob) (Raw.passthrough r).

(** Lines 103 to 105: the group mean fills the group's nulls. *)
Definition impute (rows : list Clean.Row) : list Clean.Row :=
  let filled :=
    groupby_transform (fun x => fillna (mean x) x)
                      (map Clean.department rows)
                      (map Clean.billing_amount rows) in
  map (fun rv => Clean.set_billing (fst rv) (snd rv)) (combine rows filled).

(** Line 106. *)
Definition round_billing (rows : list Clean.Row) : list Clean.Row :=
  map (fun r => Clean.set_billing r (round (Clean.billing_amount r))) rows.

(** Lines 110 to 115. *)
Definition summarize (rows : list Clean.Row) : Summary.DataFrame :=
  map (fun s => Summary.set_average s (round (Summary.average_billing s)))
      (groupby_agg rows).

Definition transform (raw_patients_df : option Raw.DataFrame)
    : M (option Clean.DataFrame * option Summary.DataFrame) :=
  match raw_patients_df with
  | None =>
      print "Transformation skipped as there is no data to transform." ;;;
      ret (None, None)
  | Some raw =>
      print "Starting data transformation..." ;;;
      require_column "dob" (Raw.columns raw) ;;;
      today <- datetime_now ;;
      let columns := set_column "age" (Raw.columns raw) in
      let aged := map (with_age today) (Raw.rows raw) in
      print "Enrichment: Calculated patient ages." ;;;
      require_column "department" columns ;;;
      require_column "billing_amount" columns ;;;
      let patients_clean := round_billing (impute aged) in
      print "Cleaning: Imputed missing billing amounts based on department average." ;;;
      require_column "patient_id" columns ;;;
      let department_summary := summarize patients_clean in
      print "Aggregation: Created department financial and patient summary." ;;;
      print "Transformation complete." ;;;
      ret (Some (Clean.mkDF columns patients_clean), Some department_summary)
  end.

(** *** Load *)

Definition load_to_lake (args : list Frame) (config : Config) : M unit :=
  match args with
  | [df] =>
      perform (MongoConnect (mongo_db_uri config)) ;;;
      perform (DeleteMany (lake_db_name config) (lake_patients_collection config)) ;;;
      perform (InsertMany (lake_db_name config) (lake_patients_collection config) df) ;;;
      print (fstr ["Raw patient data loaded successfully into MongoDB Lake: '";
                   lake_db_name config; "."; lake_patients_collection config; "'"])
  | _ => raise (TypeError "load_to_lake() takes 2 positional arguments")
  end.

Definition load_to_warehouse (args : list Frame) (config : Config) : M unit :=
  match args with
  | [df_patients; df_summary] =>
      perform (MongoConnect (mongo_db_uri config)) ;;;
      perform (DeleteMany (warehouse_db_name config)
                          (warehouse_patients_collection config)) ;;;
      perform (InsertMany (warehouse_db_name config)
                          (warehouse_patients_collection config) df_patients) ;;;
      print (fstr ["Cleaned patient data loaded successfully into Warehouse: '";
                   warehouse_db_name config; ".";
                   warehouse_patients_collection config; "'"]) ;;;
      perform (DeleteMany (warehouse_db_name config)
                          (warehouse_department_summary_collection config)) ;;;
      perform (InsertMany (warehouse_db_name config)
                          (warehouse_department_summary_collection config) df_summary) ;;;
      print (fstr ["Department summary loaded successfully into Warehouse: '";
                   warehouse_db_name config; ".";
                   warehouse_department_summary_collection config; "'"])
  | _ => raise (TypeError "load_to_warehouse() takes 3 positional arguments")
  end.

(** [dfs[i]] *)
Definition getitem (dfs : list (option Frame)) (i : nat) : M (option Frame) :=
  match nth_error dfs i with
  | Some d => ret d
  | None => raise (IndexError "list index out of range")
  end.

Definition load (config : Config) (load_fn : list Frame -> Config -> M unit)
    (dfs : list (option Frame)) (is_lake : bool) : M unit :=
  if is_lake then
    d0 <- getitem dfs 0 ;;
    match d0 with
    | Some f0 => load_fn [f0] config
    | None => ret tt
    end
  else
    d0 <- getitem dfs 0 ;;
    match d0 with
    | Some f0 =>
        d1 <- getitem dfs 1 ;;
        match d1 with
        | Some f1 => load_fn [f0; f1] config
        | None => ret tt
        end
    | None => ret tt
    end.

(** *** The orchestrator *)

(** The body of [main], for any value of the global [config]. *)
Definition main_with (config : Config) : M unit :=
  setup_directories config ;;;
  raw_patients_df <- extract config ;;
  match raw_patients_df with
  | None => print "ETL process halted due to extraction failure."
  | Some raw =>
      perform (ToCsv (patients_csv_file config) (RawFrame raw)) ;;;
      load config load_to_lake [Some (RawFrame raw)] true ;;;
      transformed_dfs <- transform (Some raw) ;;
      let (patients_clean_df, department_summary_df) := transformed_dfs in
      match patients_clean_df, department_summary_df with
      | Some patients_clean, Some department_summary =>
          perform (ToCsv (processed_patients_file config)
                         (CleanFrame patients_clean)) ;;;
          perform (ToCsv (processed_department_summary_file config)
                         (SummaryFrame department_summary)) ;;;
          load config load_to_warehouse
               [Some (CleanFrame patients_clean);
                Some (SummaryFrame department_summary)] false
      | _, _ => ret tt
      end ;;;
      print (String (ascii_of_nat 10) "ETL process for healthcare data completed successfully!")
  end.

Definition main : M unit := main_with config.

End Program.

(** ** DataFrame objects

    A DataFrame is a mutable object, and column assignment changes it in
    place.  Here [transform] is written once more over a heap of objects,
    with its [.copy()] and its assignments explicit, to settle what it
    does to the object it is given. *)

Definition Heap : Type := list Frame.

(** A computation over the heap and the world. *)
Definition Obj (A : Type) : Type := Heap -> World -> Outcome A * Heap * World.

Definition ret_obj {A : Type} (a : A) : Obj A := fun h w => (Ok a, h, w).

Definition bind_obj {A B : Type} (m : Obj A) (f : A -> Obj B) : Obj B :=
  fun h w => match m h w with
             | (Ok a, h', w') => f a h' w'
             | (Raise e, h', w') => (Raise e, h', w')
             end.

(** A computation that does not touch the heap. *)
Definition lift {A : Type} (m : M A) : Obj A :=
  fun h w => let (o, w') := m w in (o, h, w').

(** A new object: its reference is the next free position. *)
Definition new_object (content : Frame) : Obj nat :=
  fun h w => (Ok (List.length h), h ++ [content], w).

Definition read_object (ref : nat) : Obj Frame :=
  fun h w => match nth_error h ref with
             | Some content => (Ok content, h, w)
             | None => (Raise (OtherException "no such object"), h, w)
             end.

Fixpoint update_at (ref : nat) (f : Frame -> Frame) (h : Heap) : Heap :=
  match h, ref with
  | [], _ => []
  | x :: t, O => f x :: t
  | x :: t, S n => x :: update_at n f t
  end.

(** [df[column] = ...]: the object is changed in place. *)
Definition assign (ref : nat) (f : Frame -> Frame) : Obj unit :=
  fun h w => (Ok tt, update_at ref f h, w).

Definition frame_columns (content : Frame) : list string :=
  match content with
  | RawFrame df => Raw.columns df
  | CleanFrame df => Clean.columns df
  | SummaryFrame _ =>
      ["department"; "number_of_patients"; "total_revenue"; "average_billing"]
  end.

Definition frame_rows (content : Frame) : list Clean.Row :=
  match content with
  | CleanFrame df => Clean.rows df
  | _ => []
  end.

(** Lines 96 to 99 as a change of the object. *)
Definition enrich (parse_datetime : string -> option Z) (today : Z)
    (content : Frame) : Frame :=
  match content with
  | RawFrame df =>
      CleanFrame (Clean.mkDF (set_column "age" (Raw.columns df))
                             (map (with_age parse_datetime today) (Raw.rows df)))
  | other => other
  end.

(** An assignment to [billing_amount] as a change of the object. *)
Definition on_rows (f : list Clean.Row -> list Clean.Row) (content : Frame)
    : Frame :=
  match content with
  | CleanFrame df => CleanFrame (Clean.mkDF (Clean.columns df) (f (Clean.rows df)))
  | other => other
  end.

Definition transform_obj (parse_datetime : string -> option Z)
    (raw_patients_df : option nat) : Obj (option nat * option nat) :=
  match raw_patients_df with
  | None =>
      bind_obj
        (lift (print "Transformation skipped as there is no data to transform."))
        (fun _ => ret_obj (None, None))
  | Some raw_ref =>
      bind_obj (lift (print "Starting data transformation...")) (fun _ =>
      bind_obj (read_object raw_ref) (fun raw =>
      bind_obj (new_object raw) (fun patients_clean_df =>
      bind_obj (read_object patients_clean_df) (fun df =>
      bind_obj (lift (require_column "dob" (frame_columns df))) (fun _ =>
      bind_obj (lift datetime_now) (fun today =>
      bind_obj (assign patients_clean_df (enrich parse_datetime today)) (fun _ =>
      bind_obj (lift (print "Enrichment: Calculated patient ages.")) (fun _ =>
      bind_obj (read_object patients_clean_df) (fun df =>
      bind_obj (lift (require_column "department" (frame_columns df))) (fun _ =>
      bind_obj (lift (require_column "billing_amount" (frame_columns df))) (fun _ =>
      bind_obj (assign patients_clean_df (on_rows impute)) (fun _ =>
      bind_obj (assign patients_clean_df (on_rows round_billing)) (fun _ =>
      bind_obj (lift (print
        "Cleaning: Imputed missing billing amounts based on department average."))
        (fun _ =>
      bind_obj (read_object patients_clean_df) (fun df =>
      bind_obj (lift (require_column "patient_id" (frame_columns df))) (fun _ =>
      bind_obj (new_object (SummaryFrame (summarize (frame_rows df))))
        (fun department_summary_df =>
      bind_obj (lift (print
        "Aggregation: Created department financial and patient summary."))
        (fun _ =>
      bind_obj (lift (print "Transformation complete.")) (fun _ =>
      ret_obj (Some patients_clean_df, Some department_summary_df)
      )))))))))))))))))))
  end.

(** The references a run returned lead to the tables [val], or the run
    raised the error [val] is. *)
Definition points_to (h : Heap) (out : Outcome (option nat * option nat))
    (val : Outcome (option Clean.DataFrame * option Summary.DataFrame)) : Prop :=
  match out, val with
  | Ok (Some c, Some s), Ok (Some clean, Some summary) =>
      nth_error h c = Some (CleanFrame clean) /\
      nth_error h s = Some (SummaryFrame summary)
  | Ok (None, None), Ok (None, None) => True
  | Raise e, Raise e' => e = e'
  | _, _ => False
  end.

(** What a serialiser makes of the tables a run returned. *)
Definition serialized (to_csv : Frame -> string) (h : Heap)
    (out : Outcome (option nat * option nat)) : list (option string) :=
  match out with
  | Ok (c, s) =>
      map (fun ref => match ref with
                      | Some i => option_map to_csv (nth_error h i)
                      | None => None
                      end) [c; s]
  | Raise _ => []
  end.

(** ** A concrete instance, for running the program *)

Module Demo.

Definition digit (c : ascii) : option Z :=
  let n := Z.of_nat (nat_of_ascii c) in
  if (48 <=? n) && (n <=? 57) then Some (n - 48) else None.

Fixpoint number (acc : Z) (s : string) : option Z :=
  match s with
  | EmptyString => Some acc
  | String c s' =>
      match digit c with
      | Some d => number (10 * acc + d) s'
      | None => None
      end
  end.

Definition is_leap (y : Z) : bool :=
  ((y mod 4 =? 0) && negb (y mod 100 =? 0)) || (y mod 400 =? 0).

Definition days_in_month (y m : Z) : Z :=
  if m =? 2 then (if is_leap y then 29 else 28)
  else if (m =? 4) || (m =? 6) || (m =? 9) || (m =? 11) then 30 else 31.

(** Days from 1970-01-01 to the given civil date. *)
Definition days_from_civil (y m d : Z) : Z :=
  let y' := if m <=? 2 then y - 1 else y in
  let era := y' / 400 in
  let yoe := y' - era * 400 in
  let doy := (153 * (if 2 <? m then m - 3 else m + 9) + 2) / 5 + d - 1 in
  let doe := yoe * 365 + yoe / 4 - yoe / 100 + doy in
  era * 146097 + doe - 719468.

(** A parser for dates written [YYYY-MM-DD]; anything else is not a
    date. *)
Definition iso_date (s : string) : option Z :=
  if negb (Nat.eqb (String.length s) 10) then None else
  if negb (String.eqb (substring 4 1 s) "-" && String.eqb (substring 7 1 s) "-")
  then None else
  match number 0 (substring 0 4 s), number 0 (substring 5 2 s),
        number 0 (substring 8 2 s) with
  | Some y, Some m, Some d =>
      if (1 <=? m) && (m <=? 12) && (1 <=? d) && (d <=? days_in_month y m)
      then Some (days_from_civil y m d * day_ns)
      else None
  | _, _, _ => None
  end.

Definition required : list string :=
  ["patient_id"; "department"; "dob"; "billing_amount"].

(** The end-to-end example: three patients, two departments. *)
Definition patients : Raw.DataFrame :=
  Raw.mkDF required
    [ Raw.mkRow (Some 1) (Some "ER") (Some "2000-01-01") (Some (100 # 1)) [];
      Raw.mkRow (Some 2) (Some "ER") None None [];
      Raw.mkRow (Some 3) (Some "ICU") (Some "1990-01-01") None [] ].

(** 2024-01-01T00:00:00 *)
Definition new_year_2024 : Z := 19723 * day_ns.

Definition world (now : Z) : World := mkWorld now [] [].

(** An outside where the local file holds [patients] and nothing else
    can be read or fetched; every write goes through. *)
Definition env : Env :=
  mkEnv
    (fun location =>
       if String.eqb location (local_patient_data_path config)
       then inr patients
       else inl (FileNotFoundError "No such file or directory"))
    (fun _ => inl (OtherException "Connection refused"))
    (fun _ => inl (OtherException "Expecting value"))
    (fun _ => None).

(** An outside with nothing to read. *)
Definition empty_env : Env :=
  mkEnv
    (fun _ => inl (FileNotFoundError "No such file or directory"))
    (fun _ => inl (OtherException "Connection refused"))
    (fun _ => inl (OtherException "Expecting value"))
    (fun _ => None).

(** A patient whose date of birth is the day after the run. *)
Definition unborn : Raw.DataFrame :=
  Raw.mkDF required
    [ Raw.mkRow (Some 7) (Some "ER") (Some "2024-01-02") (Some (50 # 1)) [] ].

(** Two patients of one department, one without an identifier. *)
Definition anonymous : Raw.DataFrame :=
  Raw.mkDF required
    [ Raw.mkRow (Some 1) (Some "ER") (Some "2000-01-01") (Some (100 # 1)) [];
      Raw.mkRow None (Some "ER") (Some "1990-01-01") (Some (50 # 1)) [] ].

(** A table without its [dob] column. *)
Definition no_dob : Raw.DataFrame :=
  Raw.mkDF ["patient_id"; "department"; "billing_amount"]
    [ Raw.mkRow (Some 1) (Some "ER") None (Some (100 # 1)) [] ].

(** An outside whose local file lacks the [dob] column. *)
Definition env_no_dob : Env :=
  mkEnv (fun _ => inr no_dob)
        (fun _ => inl (OtherException "Connection refused"))
        (fun _ => inl (OtherException "Expecting value"))
        (fun _ => None).

(** A world that has seen output and effects before. *)
Definition busy_world (now : Z) : World :=
  mkWorld now ["earlier output"] [MakeDirs "./data/raw/"].

(** An outside where the local file holds [patients] and every insert
    into a collection fails. *)
Definition env_insert_fails : Env :=
  mkEnv (fun _ => inr patients)
        (fun _ => inl (OtherException "Connection refused"))
        (fun _ => inl (OtherException "Expecting value"))
        (fun e => match e with
                  | InsertMany _ _ _ => Some (OtherException "not primary")
                  | _ => None
                  end).

(** An outside where only the insert into the summary collection fails. *)
Definition env_summary_insert_fails : Env :=
  mkEnv (fun _ => inr patients)
        (fun _ => inl (OtherException "Connection refused"))
        (fun _ => inl (OtherException "Expecting value"))
        (fun e => match e with
                  | InsertMany _ c _ =>
                      if String.eqb c "department_summary"
                      then Some (OtherException "not primary") else None
                  | _ => None
                  end).

(** A world whose three collections already hold something. *)
Definition used_world (now : Z) : World :=
  mkWorld now []
    [InsertMany "healthcare_lake_db" "patients" (RawFrame no_dob);
     InsertMany "healthcare_warehouse_db" "patients_clean" (RawFrame no_dob);
     InsertMany "healthcare_warehouse_db" "department_summary" (RawFrame no_dob)].

(** Amounts in cents: a department whose mean falls between two
    hundredths, one with nothing to average, one with three amounts and a
    gap, one whose amounts do not round as their decimals suggest. *)
Definition cents : Raw.DataFrame :=
  Raw.mkDF required
    [ Raw.mkRow (Some 1) (Some "ER") None (Some (127 # 100)) [];
      Raw.mkRow (Some 2) (Some "ER") None (Some (128 # 100)) [];
      Raw.mkRow (Some 3) (Some "ER") None None [];
      Raw.mkRow (Some 4) (Some "ICU") None None [];
      Raw.mkRow (Some 5) (Some "LAB") None (Some (1 # 10)) [];
      Raw.mkRow (Some 6) (Some "LAB") None (Some (2 # 10)) [];
      Raw.mkRow (Some 7) (Some "LAB") None None [];
      Raw.mkRow (Some 8) (Some "LAB") None (Some (4 # 10)) [];
      Raw.mkRow (Some 9) (Some "PED") None (Some (1015 # 1000)) [];
      Raw.mkRow (Some 10) (Some "PED") None (Some (2675 # 1000)) [];
      Raw.mkRow (Some 11) (Some "OPD") None (Some (1 # 10)) [];
      Raw.mkRow (Some 12) (Some "OPD") None (Some (2 # 10)) [] ].

(** The two derived tables of [patients] at the start of 2024. *)
Definition patients_clean_rows : list Clean.Row :=
  round_billing
    (impute (map (with_age iso_date new_year_2024) (Raw.rows patients))).

Definition patients_clean : Frame :=
  CleanFrame (Clean.mkDF (set_column "age" required) patients_clean_rows).

Definition patients_summary : Frame :=
  SummaryFrame (summarize patients_clean_rows).

(** A configuration that sends both derived tables to one collection. *)
Definition one_collection_config : Config :=
  mkConfig "local_csv" "./patients.csv" "" "" "./raw/" "./processed/"
           "./raw/patients.csv" "./processed/clean.csv" "./processed/summary.csv"
           "mongodb://localhost" "lake" "patients" "warehouse" "out" "out".

(** A patient without a department beside one with. *)
Definition unassigned : Raw.DataFrame :=
  Raw.mkDF required
    [ Raw.mkRow (Some 1) None (Some "2000-01-01") (Some (75 # 1)) [];
      Raw.mkRow (Some 2) (Some "ER") None (Some (1001 # 8)) [] ].

End Demo.

(** ** Row-wise readings, used to state the properties *)

(** The billing cells of department [d], in row order. *)
Definition department_billing (d : string) (rows : list Clean.Row)
    : list (option Q) :=
  map Clean.billing_amount
      (filter (fun r => key_is d (Clean.department r)) rows).

(** The rows of department [d]. *)
Definition department_rows (d : string) (rows : list Clean.Row)
    : list Clean.Row :=
  filter (fun r => key_is d (Clean.department r)) rows.

(** What [groupby(...).transform(lambda x: x.fillna(x.mean()))] leaves in
    the cell of one row. *)
Definition filled_cell (rows : list Clean.Row) (r : Clean.Row) : option Q :=
  match Clean.department r with
  | None => None
  | Some d =>
      match Clean.billing_amount r with
      | Some b => Some b
      | None => mean (department_billing d rows)
      end
  end.

(** A row with its billing cell blanked: everything the imputation must
    leave alone. *)
Definition without_billing (r : Clean.Row) : Clean.Row :=
  Clean.set_billing r None.

(** The columns [transform] reads. *)
Definition required_columns : list string :=
  ["dob"; "billing_amount"; "department"; "patient_id"].

Definition has_required (columns : list string) : bool :=
  forallb (fun c => has_column c columns) required_columns.

(** The cleaned rows as a function of the parser, the reference instant
    and the raw rows. *)
Definition clean_rows (parse_datetime : string -> option Z) (today : Z)
    (rows : list Raw.Row) : list Clean.Row :=
  round_billing (impute (map (with_age parse_datetime today) rows)).

(** What [transform] prints on a complete run. *)
Definition transform_log : list string :=
  ["Starting data transformation...";
   "Enrichment: Calculated patient ages.";
   "Cleaning: Imputed missing billing amounts based on department average.";
   "Aggregation: Created department financial and patient summary.";
   "Transformation complete."].

(** The non-null billing amounts of department [d] in the raw rows. *)
Definition original_billing (d : string) (rows : list Raw.Row) : list Q :=
  dropna (map Raw.billing_amount
              (filter (fun r => key_is d (Raw.department r)) rows)).

(** The float64 billing column of department [d] as [transform] first
    sees it, before any fill: one cell per row of the department, in row
    order. *)
Definition department_column (d : string) (rows : list Raw.Row)
    : list (option Q) :=
  map (fun r => option_map float64 (Raw.billing_amount r))
      (filter (fun r => key_is d (Raw.department r)) rows).

(** One cleaned row, given all the raw rows (the group means need them). *)
Definition clean_row (parse_datetime : string -> option Z) (today : Z)
    (rows : list Raw.Row) (r : Raw.Row) : Clean.Row :=
  let a := with_age parse_datetime today r in
  Clean.set_billing a
    (round (filled_cell (map (with_age parse_datetime today) rows) a)).

(** The age in years before any rounding: whole days over 365.25. *)
Definition years_between (today dob : Z) : Q :=
  (inject_Z (dt_days today dob) / (36525 # 100))%Q.

Definition notnull {A : Type} (v : option A) : bool :=
  match v with Some _ => true | None => false end.

(** What the outside answers to the configured source: nothing is asked
    for an unknown selector, otherwise a failure or a table. *)
Definition outside_answer (env : Env) (config : Config)
    : option (Exn + Raw.DataFrame) :=
  if String.eqb (source config) "local_csv" then
    Some (read_csv_result env (local_patient_data_path config))
  else if String.eqb (source config) "csv" then
    Some (read_csv_result env (patient_data_url config))
  else if String.eqb (source config) "api" then
    Some (match get_result env (api_url config) with
          | inl e => inl e
          | inr response =>
              if (400 <=? status_code response) && (status_code response <? 600)
              then inl (HTTPError "bad status")
              else records_result env (body response)
          end)
  else None.

Definition answer_data (a : option (Exn + Raw.DataFrame))
    : option Raw.DataFrame :=
  match a with
  | Some (inr df) => Some df
  | _ => None
  end.

(** The first line [extract] prints. *)
Definition attempt_line (config : Config) : string :=
  fstr ["Attempting to extract data from source: '"; source config; "'"].

Definition known_sources : list string := ["local_csv"; "csv"; "api"].

(** The order of the group keys: strictly before, character by character. *)
Definition key_lt (a b : string) : Prop := String.compare a b = Lt.

(** The billing cell [transform] leaves in a row, read off the raw table:
    nothing without a department, the rounded amount when there is one,
    the rounded department mean otherwise. *)
Definition clean_billing (rows : list Raw.Row) (r : Raw.Row) : option Q :=
  match Raw.department r with
  | None => None
  | Some d =>
      match Raw.billing_amount r with
      | Some b => Some (round2 (float64 b))
      | None => round (mean (department_column d rows))
      end
  end.

Definition Zsum (x : list Z) : Z := fold_right Z.add 0 x.

(** The one read [extract] makes for each selector. *)
Definition extract_reads (config : Config) : list Effect :=
  if String.eqb (source config) "local_csv" then
    [ReadCsv (local_patient_data_path config)]
  else if String.eqb (source config) "csv" then
    [ReadCsv (patient_data_url config)]
  else if String.eqb (source config) "api" then
    [HttpGet (api_url config)]
  else [].

(** *** Reading the effect trace *)

Definition same_collection (db collection db' collection' : string) : bool :=
  String.eqb db db' && String.eqb collection collection'.

(** What a collection holds after the effects [es]: the batches inserted
    since it was last emptied. *)
Definition stored (db collection : string) (es : list Effect) : list Frame :=
  fold_left
    (fun docs e =>
       match e with
       | DeleteMany d c =>
           if same_collection db collection d c then [] else docs
       | InsertMany d c data =>
           if same_collection db collection d c then docs ++ [data] else docs
       | _ => docs
       end)
    es [].

(** The effects of one full replacement of a collection. *)
Definition replace_collection (db collection : string) (data : Frame)
    : list Effect :=
  [DeleteMany db collection; InsertMany db collection data].

(** The effects of a complete run of [main_with], after those of
    [extract]. *)
Definition persist_trace (config : Config) (raw : Raw.DataFrame)
    (clean : Clean.DataFrame) (summary : Summary.DataFrame) : list Effect :=
  [ToCsv (patients_csv_file config) (RawFrame raw);
   MongoConnect (mongo_db_uri config)] ++
  replace_collection (lake_db_name config) (lake_patients_collection config)
                     (RawFrame raw) ++
  [ToCsv (processed_patients_file config) (CleanFrame clean);
   ToCsv (processed_department_summary_file config) (SummaryFrame summary);
   MongoConnect (mongo_db_uri config)] ++
  replace_collection (warehouse_db_name config)
                     (warehouse_patients_collection config) (CleanFrame clean) ++
  replace_collection (warehouse_db_name config)
                     (warehouse_department_summary_collection config)
                     (SummaryFrame summary).

(** The three collections of a configuration are three different
    places. *)
Definition distinct_collections (config : Config) : bool :=
  negb (same_collection (lake_db_name config) (lake_patients_collection config)
          (warehouse_db_name config) (warehouse_patients_collection config)) &&
  negb (same_collection (lake_db_name config) (lake_patients_collection config)
          (warehouse_db_name config)
          (warehouse_department_summary_collection config)) &&
  negb (String.eqb (warehouse_patients_collection config)
                   (warehouse_department_summary_collection config)).

(** The lines the two loaders print. *)
Definition lake_line (config : Config) : string :=
  fstr ["Raw patient data loaded successfully into MongoDB Lake: '";
        lake_db_name config; "."; lake_patients_collection config; "'"].

Definition warehouse_patients_line (config : Config) : string :=
  fstr ["Cleaned patient data loaded successfully into Warehouse: '";
        warehouse_db_name config; ".";
        warehouse_patients_collection config; "'"].

Definition warehouse_summary_line (config : Config) : string :=
  fstr ["Department summary loaded successfully into Warehouse: '";
        warehouse_db_name config; ".";
        warehouse_department_summary_collection config; "'"].

(** The two tables of a complete [transform], as a function of the
    parser, the reference instant and the raw table. *)
Definition transformed (parse_datetime : string -> option Z) (today : Z)
    (raw : Raw.DataFrame) : Clean.DataFrame * Summary.DataFrame :=
  (Clean.mkDF (set_column "age" (Raw.columns raw))
              (clean_rows parse_datetime today (Raw.rows raw)),
   summarize (clean_rows parse_datetime today (Raw.rows raw))).

(** Tables on which the float64 model is the code's arithmetic: no sum,
    mean or product of a run leaves the range of the finite doubles when
    every amount, times 200 and the number of rows, stays within 2^1000. *)
Definition amounts_in_range (rows : list Raw.Row) : bool :=
  forallb (fun r =>
             match Raw.billing_amount r with
             | Some b =>
                 Qle_bool (Qabs b * inject_Z (200 * Z.of_nat (List.length rows)))
                          (pow2 1000)
             | None => true
             end)
          rows.

(** What [transform] returns, as a function of the table and of the
    instant [datetime.now()] gives. *)
Definition transform_result (parse_datetime : string -> option Z) (today : Z)
    (raw : Raw.DataFrame)
    : Outcome (option Clean.DataFrame * option Summary.DataFrame) :=
  fst (transform parse_datetime (Some raw) (mkWorld today [] [])).

(** * Properties *)

(** ** Group keys *)

Lemma In_insert_key (x k : string) (ks : list string) :
  In x (insert_key k ks) <-> x = k \/ In x ks.
Proof.
  induction ks as [|h t IH]; simpl.
  - intuition.
  - destruct (String.compare k h) eqn:E; simpl.
    + apply String.compare_eq_iff in E. subst h. intuition.
    + intuition.
    + rewrite IH. intuition.
Qed.

Lemma In_dropna {A : Type} (a : A) (x : list (option A)) :
  In a (dropna x) <-> In (Some a) x.
Proof.
  unfold dropna. rewrite in_flat_map. split.
  - intros [[v|] [Hin Hv]]; simpl in Hv; [|tauto].
    destruct Hv as [->|[]]. exact Hin.
  - intros Hin. exists (Some a). simpl. auto.
Qed.

Lemma In_group_keys (k : string) (keys : list (option string)) :
  In k (group_keys keys) <-> In (Some k) keys.
Proof.
  unfold group_keys. rewrite <- In_dropna.
  induction (dropna keys) as [|h t IH]; simpl.
  - tauto.
  - rewrite In_insert_key, IH. intuition.
Qed.

Lemma key_lt_trans (a b c : string) : key_lt a b -> key_lt b c -> key_lt a c.
Proof.
  unfold key_lt. intros Hab Hbc.
  apply String_as_OT.cmp_lt in Hab. apply String_as_OT.cmp_lt in Hbc.
  apply String_as_OT.cmp_lt. eapply String_as_OT.lt_trans; eassumption.
Qed.

Lemma key_lt_irrefl (a : string) : ~ key_lt a a.
Proof.
  unfold key_lt. intros H. apply String_as_OT.cmp_lt in H.
  exact (String_as_OT.lt_not_eq _ _ H eq_refl).
Qed.

Lemma insert_key_sorted (k : string) (ks : list string) :
  StronglySorted key_lt ks -> StronglySorted key_lt (insert_key k ks).
Proof.
  induction 1 as [|h t Hsorted IH Hall]; simpl.
  - repeat constructor.
  - destruct (String.compare k h) eqn:E.
    + now constructor.
    + constructor; [now constructor|].
      constructor; [exact E|].
      eapply Forall_impl; [|exact Hall].
      intros x Hx. now apply (key_lt_trans k h x).
    + constructor; [exact IH|].
      apply Forall_forall. intros x Hx. apply In_insert_key in Hx.
      destruct Hx as [->|Hx].
      * unfold key_lt. rewrite String.compare_antisym, E. reflexivity.
      * rewrite Forall_forall in Hall. now apply Hall.
Qed.

(** The groups come in strictly increasing key order. *)
Lemma group_keys_sorted (keys : list (option string)) :
  StronglySorted key_lt (group_keys keys).
Proof.
  unfold group_keys. induction (dropna keys) as [|h t IH]; simpl.
  - constructor.
  - now apply insert_key_sorted.
Qed.

Lemma key_is_true (k : string) (key : option string) :
  key_is k key = true <-> key = Some k.
Proof.
  destruct key as [k'|]; simpl.
  - rewrite String.eqb_eq. split; congruence.
  - split; discriminate.
Qed.

(** ** Positions *)

Lemma In_combine_seq {A : Type} (x : list A) (s i : nat) (a : A) :
  In (i, a) (combine (seq s (List.length x)) x) <->
  (s <= i)%nat /\ nth_error x (i - s) = Some a.
Proof.
  revert s. induction x as [|h t IH]; intros s; simpl.
  - split; [tauto|]. intros [_ H]. destruct (i - s)%nat; discriminate.
  - rewrite IH. split.
    + intros [H|[Hle H]].
      * inversion H; subst. split; [lia|].
        replace (i - i)%nat with 0%nat by lia. reflexivity.
      * split; [lia|].
        replace (i - s)%nat with (S (i - S s)) by lia. exact H.
    + intros [Hle H]. destruct (i - s)%nat as [|n] eqn:E.
      * left. inversion H; subst. f_equal. lia.
      * right. split; [lia|].
        replace (i - S s)%nat with n by lia. exact H.
Qed.

Lemma In_indexed {A : Type} (x : list A) (i : nat) (a : A) :
  In (i, a) (indexed x) <-> nth_error x i = Some a.
Proof.
  unfold indexed. rewrite In_combine_seq.
  rewrite Nat.sub_0_r. intuition lia.
Qed.

Lemma nth_error_combine {A B : Type} (x : list A) (y : list B) (i : nat) (a : A) (b : B) :
  nth_error (combine x y) i = Some (a, b) <->
  nth_error x i = Some a /\ nth_error y i = Some b.
Proof.
  revert y i. induction x as [|h t IH]; intros [|k y] [|i]; simpl;
    try (split; [discriminate | intros [? ?]; discriminate]).
  - split; [intros [= -> ->]; auto | intros [[= ->] [= ->]]; auto].
  - apply IH.
Qed.

Lemma lookup_pos_In {A : Type} (i : nat) (s : list (nat * A)) (v : A) :
  lookup_pos i s = Some v -> In (i, v) s.
Proof.
  induction s as [|[j w] t IH]; simpl; [discriminate|].
  destruct (Nat.eqb_spec i j) as [->|_].
  - intros [= ->]. auto.
  - auto.
Qed.

Lemma lookup_pos_None {A : Type} (i : nat) (s : list (nat * A)) :
  lookup_pos i s = None -> forall v, ~ In (i, v) s.
Proof.
  induction s as [|[j w] t IH]; simpl; [tauto|].
  destruct (Nat.eqb_spec i j) as [->|Hne]; [discriminate|].
  intros H v [[= -> ->]|Hin]; [congruence|]. exact (IH H v Hin).
Qed.

Lemma map_seq_nth {A B : Type} (g : nat -> B) (f : A -> B) (l : list A) :
  (forall i a, nth_error l i = Some a -> g i = f a) ->
  map g (seq 0 (List.length l)) = map f l.
Proof.
  revert g. induction l as [|h t IH]; intros g Hg; simpl; [reflexivity|].
  f_equal.
  - apply (Hg 0%nat). reflexivity.
  - rewrite <- seq_shift, map_map. apply IH.
    intros i a Hi. apply (Hg (S i)). exact Hi.
Qed.

Lemma combine_map_self {A B C : Type} (f : A -> B) (h : A * B -> C) (l : list A) :
  map h (combine l (map f l)) = map (fun a => h (a, f a)) l.
Proof.
  induction l as [|a t IH]; simpl; [reflexivity|]. now rewrite IH.
Qed.

(** ** Split, apply, combine *)

Lemma In_group_of {A : Type} (k : string) (keys : list (option string))
    (x : list A) (i : nat) (v : A) :
  In (i, v) (group_of k keys x) <->
  nth_error keys i = Some (Some k) /\ nth_error x i = Some v.
Proof.
  unfold group_of. rewrite in_map_iff. split.
  - intros [[j [key w]] [Heq Hin]]. simpl in Heq. inversion Heq; subst.
    apply filter_In in Hin. destruct Hin as [Hin Hk]. simpl in Hk.
    apply In_indexed, nth_error_combine in Hin.
    apply key_is_true in Hk. subst key. exact Hin.
  - intros [Hk Hv]. exists (i, (Some k, v)). split; [reflexivity|].
    apply filter_In. split.
    + apply In_indexed, nth_error_combine. auto.
    + cbn [fst snd]. now apply key_is_true.
Qed.

Lemma group_values_from {A B : Type} (p : B -> bool) (f : B -> A)
    (l : list B) (s : nat) :
  map (fun e => f (snd e))
      (filter (fun e => p (snd e)) (combine (seq s (List.length l)) l)) =
  map f (filter p l).
Proof.
  revert s. induction l as [|h t IH]; intros s; simpl; [reflexivity|].
  destruct (p h); simpl; now rewrite IH.
Qed.

Lemma combine_map_map {A B C : Type} (f : A -> B) (g : A -> C) (l : list A) :
  combine (map f l) (map g l) = map (fun a => (f a, g a)) l.
Proof.
  induction l as [|a t IH]; simpl; [reflexivity|]. now rewrite IH.
Qed.

Lemma filter_map_comm {A B : Type} (p : B -> bool) (f : A -> B) (l : list A) :
  filter p (map f l) = map f (filter (fun a => p (f a)) l).
Proof.
  induction l as [|a t IH]; simpl; [reflexivity|].
  destruct (p (f a)); simpl; now rewrite IH.
Qed.

(** The values [func] receives for department [d] are that department's
    billing cells, in row order. *)
Lemma group_of_billing (d : string) (rows : list Clean.Row) :
  map snd (group_of d (map Clean.department rows)
                      (map Clean.billing_amount rows)) =
  department_billing d rows.
Proof.
  unfold group_of, indexed, department_billing.
  rewrite map_map. simpl.
  rewrite (group_values_from (fun kv => key_is d (fst kv)) snd).
  rewrite combine_map_map, filter_map_comm, map_map. reflexivity.
Qed.

Lemma combine_fst_map {A B C : Type} (h : B -> C) (g : list (A * B)) :
  combine (map fst g) (map h (map snd g)) =
  map (fun e => (fst e, h (snd e))) g.
Proof.
  induction g as [|[a b] t IH]; simpl; [reflexivity|]. now rewrite IH.
Qed.

Lemma In_transform_results (rows : list Clean.Row) (i : nat) (v : option Q) :
  let keys := map Clean.department rows in
  let x := map Clean.billing_amount rows in
  In (i, v)
     (flat_map (fun k => let g := group_of k keys x in
                         combine (map fst g) (fillna (mean (map snd g)) (map snd g)))
               (group_keys keys)) <->
  exists r d, nth_error rows i = Some r /\ Clean.department r = Some d /\
              v = match Clean.billing_amount r with
                  | Some b => Some b
                  | None => mean (department_billing d rows)
                  end.
Proof.
  intros keys x. rewrite in_flat_map. split.
  - intros [k [_ Hin]]. cbv zeta in Hin. unfold fillna in Hin.
    rewrite combine_fst_map in Hin. apply in_map_iff in Hin.
    destruct Hin as [[j w] [Heq Hin]]. simpl in Heq. inversion Heq; subst j v.
    apply In_group_of in Hin. destruct Hin as [Hk Hw].
    unfold keys, x in Hk, Hw. rewrite nth_error_map in Hk, Hw.
    destruct (nth_error rows i) as [r|] eqn:Hr; [|discriminate].
    simpl in Hk, Hw. exists r, k. split; [reflexivity|].
    split; [congruence|].
    fold keys x. unfold keys, x. rewrite group_of_billing.
    inversion Hw; subst w. reflexivity.
  - intros [r [d [Hr [Hd ->]]]]. exists d. split.
    + apply In_group_keys. unfold keys. rewrite <- Hd.
      apply in_map. eapply nth_error_In; eauto.
    + cbv zeta. unfold fillna. rewrite combine_fst_map.
      apply in_map_iff. exists (i, Clean.billing_amount r). split.
      * simpl. unfold keys, x. rewrite group_of_billing. reflexivity.
      * apply In_group_of. unfold keys, x. rewrite !nth_error_map, Hr.
        simpl. rewrite Hd. auto.
Qed.

(** Row by row, the grouped fill is [filled_cell]. *)
Lemma groupby_fill_cells (rows : list Clean.Row) :
  groupby_transform (fun x => fillna (mean x) x)
                    (map Clean.department rows)
                    (map Clean.billing_amount rows) =
  map (filled_cell rows) rows.
Proof.
  unfold groupby_transform. rewrite length_map.
  apply map_seq_nth. intros i r Hr.
  pose proof (In_transform_results rows i) as Hres. cbv zeta in Hres.
  destruct (lookup_pos i _) as [v|] eqn:Hl.
  - apply lookup_pos_In, Hres in Hl.
    destruct Hl as [r' [d [Hr' [Hd ->]]]].
    assert (r' = r) by congruence. subst r'.
    unfold filled_cell. rewrite Hd. reflexivity.
  - unfold filled_cell. destruct (Clean.department r) as [d|] eqn:Hd; [|reflexivity].
    exfalso. eapply lookup_pos_None; [exact Hl|].
    apply Hres. exists r, d. eauto.
Qed.

Lemma impute_rows (rows : list Clean.Row) :
  impute rows = map (fun r => Clean.set_billing r (filled_cell rows r)) rows.
Proof.
  unfold impute. rewrite groupby_fill_cells.
  apply (combine_map_self (filled_cell rows)
           (fun rv => Clean.set_billing (fst rv) (snd rv))).
Qed.

(** ** Running [transform] *)

Lemma has_column_set_age (name : string) (columns : list string) :
  name <> "age" ->
  has_column name (set_column "age" columns) = has_column name columns.
Proof.
  intros Hne. unfold set_column.
  destruct (has_column "age" columns); [reflexivity|].
  unfold has_column. rewrite existsb_app. simpl.
  apply String.eqb_neq in Hne. rewrite Hne. now rewrite !orb_false_r.
Qed.

Lemma has_required_columns (columns : list string) :
  has_required columns = true <->
  has_column "dob" columns = true /\
  has_column "billing_amount" columns = true /\
  has_column "department" columns = true /\
  has_column "patient_id" columns = true.
Proof.
  unfold has_required, required_columns. simpl.
  rewrite !andb_true_iff. intuition.
Qed.

(** With the four columns there, [transform] runs to its end. *)
Lemma transform_complete (parse : string -> option Z) (raw : Raw.DataFrame)
    (w : World) :
  has_required (Raw.columns raw) = true ->
  transform parse (Some raw) w =
  (Ok (Some (Clean.mkDF (set_column "age" (Raw.columns raw))
                        (clean_rows parse (clock w) (Raw.rows raw))),
       Some (summarize (clean_rows parse (clock w) (Raw.rows raw)))),
   mkWorld (clock w) (console w ++ transform_log) (effects w)).
Proof.
  intros H. apply has_required_columns in H.
  destruct H as (Hdob & Hbill & Hdept & Hpid).
  unfold transform, require_column.
  rewrite !has_column_set_age by discriminate.
  rewrite Hdob, Hbill, Hdept, Hpid.
  unfold bind, print, ret, datetime_now, clean_rows, transform_log. simpl.
  rewrite <- !app_assoc. reflexivity.
Qed.

Lemma clean_rows_map (parse : string -> option Z) (today : Z)
    (rows : list Raw.Row) :
  clean_rows parse today rows = map (clean_row parse today rows) rows.
Proof.
  unfold clean_rows, round_billing. rewrite impute_rows, !map_map.
  reflexivity.
Qed.

Lemma aged_department_billing (parse : string -> option Z) (today : Z)
    (d : string) (rows : list Raw.Row) :
  department_billing d (map (with_age parse today) rows) =
  department_column d rows.
Proof.
  unfold department_billing, department_column.
  rewrite filter_map_comm, map_map. reflexivity.
Qed.

Lemma dropna_option_map {A B : Type} (f : A -> B) (x : list (option A)) :
  dropna (map (option_map f) x) = map f (dropna x).
Proof.
  unfold dropna. induction x as [|[a|] t IH]; simpl; congruence.
Qed.

Lemma department_column_dropna (d : string) (rows : list Raw.Row) :
  dropna (department_column d rows) = map float64 (original_billing d rows).
Proof.
  unfold department_column, original_billing.
  rewrite <- dropna_option_map, map_map. reflexivity.
Qed.

Lemma mean_none (x : list (option Q)) : dropna x = [] -> mean x = None.
Proof. intros H. unfold mean. now rewrite H. Qed.

Lemma mean_some (x : list (option Q)) :
  dropna x <> [] ->
  mean x = Some (fdiv (np_sum (map or_zero x)) (inject_Z (count x))).
Proof. intros H. unfold mean. destruct (dropna x); [congruence|reflexivity]. Qed.

Lemma department_column_empty (d : string) (rows : list Raw.Row) :
  dropna (department_column d rows) = [] <-> original_billing d rows = [].
Proof.
  rewrite department_column_dropna.
  destruct (original_billing d rows); simpl; split; congruence.
Qed.

(** ** The imputation step *)

(** C5.  The grouped imputation (the fill, alone or followed by the
    rounding) keeps the number of rows, their order and every cell other
    than [billing_amount], the department among them. *)
Theorem impute_changes_billing_only (rows : list Clean.Row) :
  List.length (round_billing (impute rows)) = List.length rows /\
  map Clean.department (round_billing (impute rows)) = map Clean.department rows /\
  map without_billing (round_billing (impute rows)) = map without_billing rows /\
  map without_billing (impute rows) = map without_billing rows.
Proof.
  unfold round_billing. rewrite impute_rows, !map_map.
  split; [apply length_map|].
  split; [reflexivity|]. split; reflexivity.
Qed.



(** ** Ages *)

Lemma astype_int_nonneg (x : Q) :
  0 <= Qnum x -> astype_int x = Qfloor x.
Proof.
  destruct x as [n d]. unfold astype_int, Qfloor. simpl. intros Hn.
  apply Z.quot_div_nonneg; lia.
Qed.

Lemma astype_int_nonpos (x : Q) :
  Qnum x <= 0 -> astype_int x = Qceiling x.
Proof.
  destruct x as [n d]. unfold astype_int, Qceiling, Qfloor. simpl. intros Hn.
  rewrite <- (Z.opp_involutive n) at 1.
  rewrite Z.quot_opp_l by lia. f_equal.
  apply Z.quot_div_nonneg; lia.
Qed.

Lemma years_between_num (today dob : Z) :
  Qnum (years_between today dob) = dt_days today dob * 100.
Proof.
  unfold years_between, Qdiv, Qmult, Qinv. simpl. reflexivity.
Qed.

Lemma dt_days_sign (today dob : Z) :
  (dob <= today -> 0 <= dt_days today dob) /\
  (today < dob -> dt_days today dob < 0).
Proof.
  unfold dt_days, day_ns. split; intros H.
  - apply Z.div_pos; lia.
  - apply Z.div_lt_upper_bound; lia.
Qed.

Lemma age_of_value (today : Z) (dob : option Z) :
  age_of today dob =
  match dob with
  | None => 0
  | Some t => if t <=? today then Qfloor (years_between today t)
              else Qceiling (years_between today t)
  end.
Proof.
  destruct dob as [t|]; [|reflexivity].
  unfold age_of, age_years. simpl. fold (years_between today t).
  destruct (Z.leb_spec t today) as [Hle|Hlt].
  - apply astype_int_nonneg. rewrite years_between_num.
    pose proof (proj1 (dt_days_sign today t) Hle). lia.
  - apply astype_int_nonpos. rewrite years_between_num.
    pose proof (proj2 (dt_days_sign today t) Hlt). lia.
Qed.

(** C2, as the code has it.  Every row gets an integer age computed
    against the one instant [transform] read from the clock: 0 when [dob]
    is null or not a date; otherwise whole days over 365.25 with the
    fraction dropped, which is the floor when [dob] is not after that
    instant and the ceiling when it is. *)
Theorem transform_age (parse : string -> option Z) (raw : Raw.DataFrame)
    (w : World) :
  has_required (Raw.columns raw) = true ->
  exists clean summary w',
    transform parse (Some raw) w = (Ok (Some clean, Some summary), w') /\
    List.length (Clean.rows clean) = List.length (Raw.rows raw) /\
    forall i r,
      nth_error (Raw.rows raw) i = Some r ->
      exists r',
        nth_error (Clean.rows clean) i = Some r' /\
        Clean.dob r' = to_datetime parse (Raw.dob r) /\
        Clean.age r' =
        match to_datetime parse (Raw.dob r) with
        | None => 0
        | Some t =>
            if t <=? clock w then Qfloor (years_between (clock w) t)
            else Qceiling (years_between (clock w) t)
        end.
Proof.
  intros Hcols. eexists. eexists. eexists.
  split; [apply transform_complete; exact Hcols|]. simpl.
  rewrite clean_rows_map. split; [apply length_map|].
  intros i r Hr.
  exists (clean_row parse (clock w) (Raw.rows raw) r).
  rewrite nth_error_map, Hr. repeat split.
  unfold clean_row, with_age. simpl. apply age_of_value.
Qed.

Lemma transform_age_witness :
  exists clean summary w',
    transform Demo.iso_date (Some Demo.patients)
              (Demo.world Demo.new_year_2024) =
    (Ok (Some clean, Some summary), w') /\
    map Clean.age (Clean.rows clean) = [24; 0; 33].
Proof.
  destruct (transform_age Demo.iso_date Demo.patients
              (Demo.world Demo.new_year_2024) eq_refl)
    as (clean & summary & w' & Hrun & Hlen & Hrows).
  exists clean, summary, w'. split; [exact Hrun|].
  destruct (Hrows 0%nat _ eq_refl) as (r1 & H1 & _ & A1).
  destruct (Hrows 1%nat _ eq_refl) as (r2 & H2 & _ & A2).
  destruct (Hrows 2%nat _ eq_refl) as (r3 & H3 & _ & A3).
  destruct (Clean.rows clean) as [|x1 [|x2 [|x3 [|x4 rest]]]];
    try discriminate.
  simpl in H1, H2, H3. inversion H1; inversion H2; inversion H3; subst.
  simpl. rewrite A1, A2, A3. reflexivity.
Defined.

(** C2 as stated fails: born the day after the run, the code gives age 0
    where the floor of days over 365.25 is -1. *)
Lemma age_is_not_floor_for_future_dob :
  exists clean summary w' r' t,
    transform Demo.iso_date (Some Demo.unborn)
              (Demo.world Demo.new_year_2024) =
    (Ok (Some clean, Some summary), w') /\
    nth_error (Clean.rows clean) 0 = Some r' /\
    to_datetime Demo.iso_date (Some "2024-01-02") = Some t /\
    Clean.age r' = 0 /\
    Qfloor (inject_Z (dt_days Demo.new_year_2024 t) / (36525 # 100)) = -1.
Proof.
  do 5 eexists. split; [apply transform_complete; reflexivity|].
  split; [lazy; reflexivity|]. split; [lazy; reflexivity|].
  split; lazy; reflexivity.
Qed.

(** ** The department summary *)

Lemma count_notnull {A B : Type} (f : A -> option B) (l : list A) :
  count (map f l) = Z.of_nat (List.length (filter (fun a => notnull (f a)) l)).
Proof.
  unfold count. f_equal.
  induction l as [|a t IH]; simpl; [reflexivity|].
  destruct (f a); simpl; now rewrite IH.
Qed.

Lemma filter_all {A : Type} (p : A -> bool) (l : list A) :
  (forall a, In a l -> p a = true) -> filter p l = l.
Proof.
  induction l as [|a t IH]; simpl; intros H; [reflexivity|].
  rewrite (H a) by auto. f_equal. apply IH. auto.
Qed.

Lemma In_summarize (rows : list Clean.Row) (s : Summary.Row) :
  In s (summarize rows) <->
  exists d,
    In (Some d) (map Clean.department rows) /\
    s = Summary.mkRow d
          (count (map Clean.patient_id (department_rows d rows)))
          (sum (department_billing d rows))
          (round (group_mean (department_billing d rows))).
Proof.
  unfold summarize, groupby_agg. rewrite map_map, in_map_iff.
  split.
  - intros [d [<- Hin]]. exists d. split; [now apply In_group_keys|reflexivity].
  - intros [d [Hin ->]]. exists d. split; [reflexivity|now apply In_group_keys].
Qed.

Lemma summarize_departments (rows : list Clean.Row) :
  map Summary.department (summarize rows) =
  group_keys (map Clean.department rows).
Proof.
  unfold summarize, groupby_agg. rewrite !map_map. simpl. apply map_id.
Qed.

Lemma sorted_NoDup (ks : list string) : StronglySorted key_lt ks -> NoDup ks.
Proof.
  induction 1 as [|h t Hsorted IH Hall]; constructor; [|exact IH].
  intros Hin. rewrite Forall_forall in Hall.
  exact (key_lt_irrefl h (Hall h Hin)).
Qed.

Lemma summarize_covers (rows : list Clean.Row) (r : Clean.Row) (d : string) :
  In r rows -> Clean.department r = Some d ->
  exists s, In s (summarize rows) /\ Summary.department s = d.
Proof.
  intros Hr Hd. eexists. split.
  - apply In_summarize. exists d. split; [|reflexivity].
    rewrite <- Hd. now apply in_map.
  - reflexivity.
Qed.




(** C4, as the code has it.  Every department has its summary row, and
    there [number_of_patients] counts the rows of the department whose
    [patient_id] is not null, whatever their billing amount; it is the
    number of the department's rows when none of them lacks its
    [patient_id]. *)
Theorem summary_number_of_patients (parse : string -> option Z)
    (raw : Raw.DataFrame) (w : World) :
  has_required (Raw.columns raw) = true ->
  exists clean summary w',
    transform parse (Some raw) w = (Ok (Some clean, Some summary), w') /\
    (forall r d, In r (Clean.rows clean) -> Clean.department r = Some d ->
                 exists s, In s summary /\ Summary.department s = d) /\
    forall s, In s summary ->
      Summary.number_of_patients s =
      Z.of_nat (List.length
                  (filter (fun r => notnull (Clean.patient_id r))
                          (department_rows (Summary.department s)
                                           (Clean.rows clean)))) /\
      ((forall r, In r (department_rows (Summary.department s) (Clean.rows clean)) ->
                  Clean.patient_id r <> None) ->
       Summary.number_of_patients s =
       Z.of_nat (List.length (department_rows (Summary.department s)
                                              (Clean.rows clean)))).
Proof.
  intros Hcols. eexists. eexists. eexists.
  split; [apply transform_complete; exact Hcols|]. simpl.
  split; [apply summarize_covers|].
  intros s Hs. apply In_summarize in Hs. destruct Hs as [d [_ ->]]. simpl.
  rewrite count_notnull. split; [reflexivity|].
  intros Hall. rewrite filter_all; [reflexivity|].
  intros r Hr. specialize (Hall r Hr).
  destruct (Clean.patient_id r); [reflexivity|congruence].
Qed.

Lemma summary_number_of_patients_witness :
  exists clean summary w',
    transform Demo.iso_date (Some Demo.patients)
              (Demo.world Demo.new_year_2024) =
    (Ok (Some clean, Some summary), w') /\
    map (fun s => (Summary.department s, Summary.number_of_patients s)) summary =
    [("ER", 2); ("ICU", 1)].
Proof.
  destruct (summary_number_of_patients Demo.iso_date Demo.patients
              (Demo.world Demo.new_year_2024) eq_refl)
    as (clean & summary & w' & Hrun & _ & Hrows).
  exists clean, summary, w'. split; [exact Hrun|].
  rewrite transform_complete in Hrun by reflexivity.
  inversion Hrun; subst clean summary w'. clear Hrun.
  set (summary := summarize _) in *.
  assert (map Summary.department summary = ["ER"; "ICU"]) as Hd
    by (vm_compute; reflexivity).
  destruct summary as [|er [|icu [|x rest]]]; try discriminate.
  simpl in Hd. inversion Hd as [[Her Hicu]]. simpl.
  destruct (Hrows er (or_introl eq_refl)) as [-> _].
  destruct (Hrows icu (or_intror (or_introl eq_refl))) as [-> _].
  rewrite Her, Hicu. reflexivity.
Defined.

(** C4 as stated fails: of two rows of department ER, one without a
    [patient_id], the summary counts one. *)
Lemma number_of_patients_skips_null_id :
  exists clean summary w' s,
    transform Demo.iso_date (Some Demo.anonymous)
              (Demo.world Demo.new_year_2024) =
    (Ok (Some clean, Some summary), w') /\
    summary = [s] /\
    Summary.department s = "ER" /\
    Summary.number_of_patients s = 1 /\
    List.length (department_rows "ER" (Clean.rows clean)) = 2%nat.
Proof.
  do 4 eexists. split; [apply transform_complete; reflexivity|].
  split; [lazy; reflexivity|]. split; [reflexivity|].
  split; lazy; reflexivity.
Qed.

(** ** Sequencing *)

Lemma bind_ok {A B : Type} (m : M A) (f : A -> M B) (w w' : World) (a : A) :
  m w = (Ok a, w') -> bind m f w = f a w'.
Proof. intros H. unfold bind. now rewrite H. Qed.

Lemma bind_raise {A B : Type} (m : M A) (f : A -> M B) (w w' : World) (e : Exn) :
  m w = (Raise e, w') -> bind m f w = (Raise e, w').
Proof. intros H. unfold bind. now rewrite H. Qed.

(** ** [transform]: absent input, missing columns, determinism *)

(** C10.  On an absent dataset [transform] does not raise: it prints one
    line and returns the pair of absent results; clock and effects are as
    before. *)
Theorem transform_none (parse : string -> option Z) (w : World) :
  transform parse None w =
  (Ok (None, None),
   mkWorld (clock w)
           (console w ++ ["Transformation skipped as there is no data to transform."])
           (effects w)).
Proof. reflexivity. Qed.

(** Which column [transform] misses first, in the order it reads them. *)
Lemma transform_missing_key (parse : string -> option Z) (raw : Raw.DataFrame)
    (w : World) :
  has_required (Raw.columns raw) = false ->
  exists key w',
    transform parse (Some raw) w = (Raise (KeyError key), w') /\
    In key required_columns /\
    has_column key (Raw.columns raw) = false /\
    clock w' = clock w /\ effects w' = effects w.
Proof.
  intros H. unfold transform, require_column.
  rewrite !has_column_set_age by discriminate.
  destruct (has_column "dob" (Raw.columns raw)) eqn:Hdob;
    [|exists "dob"; eexists; simpl; intuition].
  destruct (has_column "department" (Raw.columns raw)) eqn:Hdept;
    [|exists "department"; eexists; simpl; intuition].
  destruct (has_column "billing_amount" (Raw.columns raw)) eqn:Hbill;
    [|exists "billing_amount"; eexists; simpl; intuition].
  destruct (has_column "patient_id" (Raw.columns raw)) eqn:Hpid;
    [|exists "patient_id"; eexists; simpl; intuition].
  assert (has_required (Raw.columns raw) = true)
    by (apply has_required_columns; auto).
  congruence.
Qed.

(** C6.  On a table that lacks a required column [transform] returns no
    result: it raises [KeyError] for a column that is missing.  [main]
    does not catch it: when the run reaches [transform] with such a table,
    [main] ends in the same error and nothing further is persisted. *)
Theorem transform_missing_column_raises (parse : string -> option Z)
    (env : Env) (cfg : Config) (raw : Raw.DataFrame) (w : World) :
  has_required (Raw.columns raw) = false ->
  (exists key w',
     transform parse (Some raw) w = (Raise (KeyError key), w') /\
     In key required_columns /\
     has_column key (Raw.columns raw) = false) /\
  (forall w0 w1 w2 w3,
     setup_directories env cfg w0 = (Ok tt, w1) ->
     extract env cfg w1 = (Ok (Some raw), w2) ->
     perform env (ToCsv (patients_csv_file cfg) (RawFrame raw)) w2 = (Ok tt, w3) ->
     load cfg (load_to_lake env) [Some (RawFrame raw)] true w3 = (Ok tt, w) ->
     exists key w',
       main_with parse env cfg w0 = (Raise (KeyError key), w') /\
       effects w' = effects w).
Proof.
  intros Hcols.
  destruct (transform_missing_key parse raw w Hcols)
    as (key & w' & Hrun & Hin & Hmiss & _ & Heff).
  split; [exists key, w'; auto|].
  intros w0 w1 w2 w3 Hsetup Hextract Hcsv Hlake.
  exists key, w'. split; [|exact Heff].
  unfold main_with.
  rewrite (bind_ok _ _ _ _ _ Hsetup), (bind_ok _ _ _ _ _ Hextract).
  rewrite (bind_ok _ _ _ _ _ Hcsv), (bind_ok _ _ _ _ _ Hlake).
  rewrite (bind_raise _ _ _ _ _ Hrun). reflexivity.
Qed.

Lemma transform_missing_column_raises_witness :
  (exists key w',
     transform Demo.iso_date (Some Demo.no_dob) (Demo.world Demo.new_year_2024) =
     (Raise (KeyError key), w') /\ key = "dob") /\
  exists w',
    main Demo.iso_date Demo.env_no_dob (Demo.world Demo.new_year_2024) =
    (Raise (KeyError "dob"), w') /\
    filter (fun e => match e with ToCsv _ _ => true | _ => false end) (effects w') =
    [ToCsv "./data/raw/patients.csv" (RawFrame Demo.no_dob)].
Proof.
  split.
  - destruct (transform_missing_column_raises Demo.iso_date Demo.env_no_dob
                config Demo.no_dob (Demo.world Demo.new_year_2024) eq_refl)
      as [(key & w' & Hrun & _ & _) _].
    exists key, w'. split; [exact Hrun|].
    vm_compute in Hrun. congruence.
  - edestruct (transform_missing_column_raises Demo.iso_date Demo.env_no_dob
                 config Demo.no_dob) as [_ Hmain]; [reflexivity|].
    edestruct (Hmain (Demo.world Demo.new_year_2024))
      as (key & w' & Hrun & Heff); [lazy; reflexivity ..|].
    exists w'. vm_compute in Hrun. inversion Hrun; subst key w'.
    split; reflexivity.
Defined.

(** The value of [transform] as a function of the parser, the reference
    instant and the input alone. *)
Lemma transform_value (parse : string -> option Z)
    (raw : option Raw.DataFrame) (w : World) :
  fst (transform parse raw w) =
  fst (transform parse raw (mkWorld (clock w) [] [])).
Proof.
  destruct raw as [raw|]; [|reflexivity].
  destruct (has_required (Raw.columns raw)) eqn:Hcols.
  - now rewrite !transform_complete.
  - unfold transform, require_column.
    rewrite !has_column_set_age by discriminate.
    destruct (has_column "dob" (Raw.columns raw)); [|reflexivity].
    destruct (has_column "department" (Raw.columns raw)); [|reflexivity].
    destruct (has_column "billing_amount" (Raw.columns raw)); [|reflexivity].
    destruct (has_column "patient_id" (Raw.columns raw)); reflexivity.
Qed.

(** *** The object-level run *)

Lemma nth_error_fresh (h : Heap) (x : Frame) (t : Heap) :
  nth_error (h ++ x :: t) (List.length h) = Some x.
Proof. induction h as [|y h IH]; simpl; auto. Qed.

Lemma update_at_fresh (h : Heap) (f : Frame -> Frame) (x : Frame) (t : Heap) :
  update_at (List.length h) f (h ++ x :: t) = h ++ f x :: t.
Proof. induction h as [|y h IH]; simpl; [reflexivity|]. now rewrite IH. Qed.

Lemma nth_error_second (h : Heap) (x y : Frame) :
  nth_error (h ++ [x; y]) (List.length (h ++ [x])) = Some y.
Proof.
  replace (h ++ [x; y]) with ((h ++ [x]) ++ [y])
    by (rewrite <- app_assoc; reflexivity).
  apply nth_error_fresh.
Qed.

Lemma nth_error_kept (h fresh : Heap) (ref : nat) (x : Frame) :
  nth_error h ref = Some x -> nth_error (h ++ fresh) ref = Some x.
Proof.
  intros H. rewrite nth_error_app1; [exact H|].
  apply nth_error_Some. congruence.
Qed.

(** The object-level [transform] agrees with [transform]: it prints the
    same, it only adds objects to the heap, and the references it returns
    lead to the tables [transform] returns. *)
Lemma transform_obj_run (parse : string -> option Z) (raw : Raw.DataFrame)
    (ref : nat) (h : Heap) (w : World) :
  nth_error h ref = Some (RawFrame raw) ->
  exists out fresh,
    transform_obj parse (Some ref) h w =
    (out, h ++ fresh, snd (transform parse (Some raw) w)) /\
    points_to (h ++ fresh) out (fst (transform parse (Some raw) w)).
Proof.
  intros Href.
  unfold transform_obj, transform, bind_obj, bind, lift, read_object,
    new_object, assign, require_column, datetime_now, print, ret_obj, ret, raise.
  rewrite Href. cbv beta iota zeta.
  rewrite (nth_error_fresh h (RawFrame raw) []).
  cbn [frame_columns].
  destruct (has_column "dob" (Raw.columns raw)) eqn:Hdob;
    [|exists (Raise (KeyError "dob")), [RawFrame raw]; split; reflexivity].
  cbv beta iota zeta. cbn [clock].
  rewrite (update_at_fresh h _ (RawFrame raw) []).
  rewrite (nth_error_fresh h _ []). cbn [enrich frame_columns Clean.columns].
  destruct (has_column "department" (set_column "age" (Raw.columns raw)))
    eqn:Hdept; [|eexists; eexists; split; reflexivity].
  destruct (has_column "billing_amount" (set_column "age" (Raw.columns raw)))
    eqn:Hbill; [|eexists; eexists; split; reflexivity].
  cbv beta iota zeta.
  rewrite !(update_at_fresh h _ _ []).
  rewrite (nth_error_fresh h _ []).
  cbn [on_rows frame_columns frame_rows Clean.columns Clean.rows].
  destruct (has_column "patient_id" (set_column "age" (Raw.columns raw)))
    eqn:Hpid; [|eexists; eexists; split; reflexivity].
  cbv beta iota zeta.
  eexists. eexists. split.
  - rewrite <- app_assoc. reflexivity.
  - cbn [points_to fst app]. split.
    + apply nth_error_fresh.
    + apply nth_error_second.
Qed.


Lemma transform_obj_returns (parse : string -> option Z) (raw : Raw.DataFrame)
    (ref : nat) (h : Heap) (w : World) :
  nth_error h ref = Some (RawFrame raw) ->
  exists out h1 w1,
    transform_obj parse (Some ref) h w = (out, h1, w1) /\
    (forall i x, nth_error h i = Some x -> nth_error h1 i = Some x) /\
    points_to h1 out (fst (transform parse (Some raw) w)).
Proof.
  intros Href.
  destruct (transform_obj_run parse raw ref h w Href) as (out & fresh & Hrun & Hout).
  exists out, (h ++ fresh), (snd (transform parse (Some raw) w)).
  split; [exact Hrun|]. split; [|exact Hout].
  intros i x. apply nth_error_kept.
Qed.

(** Two results that lead to the same tables are serialised alike. *)
Lemma points_to_serialized (to_csv : Frame -> string) (h h' : Heap)
    (out out' : Outcome (option nat * option nat))
    (val : Outcome (option Clean.DataFrame * option Summary.DataFrame)) :
  points_to h out val -> points_to h' out' val ->
  serialized to_csv h' out' = serialized to_csv h out.
Proof.
  unfold points_to, serialized.
  destruct out as [[[c|] [s|]]|e], out' as [[[c'|] [s'|]]|e'],
    val as [[[clean|] [summary|]]|x]; try tauto.
  intros [Hc Hs] [Hc' Hs']. cbn [map]. now rewrite Hc, Hs, Hc', Hs'.
Qed.

(** C9.  Two runs of [transform] on the same raw table, read at the same
    reference instant, give the same patient table and the same department
    summary, or fail with the same error: the rest of the world, the
    objects already there and the place of the input among them do not
    matter.  The first run leaves the object it was given, and every other
    object, as it was ([transform] works on a copy), so the second run may
    be made on the very same object, from the heap the first one left.
    The tables of both runs are the one value [transform_result] gives for
    the table and the instant, and whatever a serialiser makes of a table's
    content, it makes the same of the tables of both runs. *)
Theorem transform_deterministic (parse : string -> option Z)
    (raw : Raw.DataFrame) (ref ref' : nat) (h h' : Heap) (w w' : World) :
  nth_error h ref = Some (RawFrame raw) ->
  nth_error h' ref' = Some (RawFrame raw) ->
  clock w' = clock w ->
  exists out h1 w1 out' h1' w1',
    transform_obj parse (Some ref) h w = (out, h1, w1) /\
    transform_obj parse (Some ref') h' w' = (out', h1', w1') /\
    (forall i x, nth_error h i = Some x -> nth_error h1 i = Some x) /\
    points_to h1 out (transform_result parse (clock w) raw) /\
    points_to h1' out' (transform_result parse (clock w) raw) /\
    forall to_csv : Frame -> string,
      serialized to_csv h1' out' = serialized to_csv h1 out.
Proof.
  intros Href Href' Hclock.
  destruct (transform_obj_returns parse raw ref h w Href)
    as (out & h1 & w1 & Hrun & Hkept & Hout).
  destruct (transform_obj_returns parse raw ref' h' w' Href')
    as (out' & h1' & w1' & Hrun' & _ & Hout').
  rewrite (transform_value parse (Some raw) w) in Hout.
  rewrite (transform_value parse (Some raw) w'), Hclock in Hout'.
  fold (transform_result parse (clock w) raw) in Hout, Hout'.
  exists out, h1, w1, out', h1', w1'.
  repeat (split; [assumption|]).
  intros to_csv. exact (points_to_serialized to_csv h1 h1' out out' _ Hout Hout').
Qed.

(** [transform] twice on one object, the second time after other output
    and effects: the object is kept, and the two runs return equal
    tables at new places. *)
Lemma transform_deterministic_witness :
  exists h1 w1 h2 w2,
    transform_obj Demo.iso_date (Some 0%nat) [RawFrame Demo.patients]
                  (Demo.world Demo.new_year_2024) =
    (Ok (Some 1%nat, Some 2%nat), h1, w1) /\
    transform_obj Demo.iso_date (Some 0%nat) h1
                  (Demo.busy_world Demo.new_year_2024) =
    (Ok (Some 3%nat, Some 4%nat), h2, w2) /\
    h2 =
    [ RawFrame Demo.patients;
      CleanFrame (Clean.mkDF
        ["patient_id"; "department"; "dob"; "billing_amount"; "age"]
        [ Clean.mkRow (Some 1) (Some "ER") (Some (10957 * day_ns))
                      (Some (100 # 1)) 24 [];
          Clean.mkRow (Some 2) (Some "ER") None (Some (100 # 1)) 0 [];
          Clean.mkRow (Some 3) (Some "ICU") (Some (7305 * day_ns)) None 33 [] ]);
      SummaryFrame [ Summary.mkRow "ER" 2 (200 # 1) (Some (100 # 1));
                     Summary.mkRow "ICU" 1 0 None ];
      CleanFrame (Clean.mkDF
        ["patient_id"; "department"; "dob"; "billing_amount"; "age"]
        [ Clean.mkRow (Some 1) (Some "ER") (Some (10957 * day_ns))
                      (Some (100 # 1)) 24 [];
          Clean.mkRow (Some 2) (Some "ER") None (Some (100 # 1)) 0 [];
          Clean.mkRow (Some 3) (Some "ICU") (Some (7305 * day_ns)) None 33 [] ]);
      SummaryFrame [ Summary.mkRow "ER" 2 (200 # 1) (Some (100 # 1));
                     Summary.mkRow "ICU" 1 0 None ] ] /\
    forall to_csv : Frame -> string,
      serialized to_csv h2 (Ok (Some 3%nat, Some 4%nat)) =
      serialized to_csv h1 (Ok (Some 1%nat, Some 2%nat)).
Proof.
  destruct (transform_deterministic Demo.iso_date Demo.patients 0 0
              [RawFrame Demo.patients]
              (snd (fst (transform_obj Demo.iso_date (Some 0%nat)
                           [RawFrame Demo.patients]
                           (Demo.world Demo.new_year_2024))))
              (Demo.world Demo.new_year_2024)
              (Demo.busy_world Demo.new_year_2024)
              eq_refl eq_refl eq_refl)
    as (out & h1 & w1 & out' & h2 & w2 & Hrun & Hrun' & _ & _ & _ & Hcsv).
  vm_compute in Hrun. vm_compute in Hrun'.
  inversion Hrun; subst out h1 w1. inversion Hrun'; subst out' h2 w2.
  do 4 eexists.
  split; [vm_compute; reflexivity|].
  split; [vm_compute; reflexivity|].
  split; [vm_compute; reflexivity|].
  exact Hcsv.
Defined.


(** ** [extract] *)

Lemma filter_app_one {A : Type} (p : A -> bool) (l : list A) (a : A) :
  p a = false -> filter p (l ++ [a]) = filter p l.
Proof.
  intros H. rewrite filter_app. simpl. rewrite H. apply app_nil_r.
Qed.

(** One branch of [extract] run to its end: the outcome, the clock, the
    persistence effects and the two console lines. *)
Ltac extract_branch :=
  eexists; simpl;
  split; [reflexivity|];
  split; [reflexivity|];
  split; [now apply filter_app_one|];
  eexists; split; [rewrite <- app_assoc; reflexivity|reflexivity].

Ltac run_extract :=
  unfold bind, try_except, pd_read_csv, requests_get, raise_for_status,
    response_records, bind, log_effect, of_result, print;
  simpl.

(** [extract] always returns: the table the outside gave, or nothing;
    with the lines it printed and the effects it had. *)
Lemma extract_returns (env : Env) (cfg : Config) (w : World) :
  exists w',
    extract env cfg w = (Ok (answer_data (outside_answer env cfg)), w') /\
    clock w' = clock w /\
    filter is_persistence (effects w') = filter is_persistence (effects w) /\
    match outside_answer env cfg with
    | None =>
        console w' = console w ++ [attempt_line cfg] /\
        effects w' = effects w
    | Some (inl e) =>
        exists line,
          console w' = console w ++ [attempt_line cfg; line] /\
          prefix "Error" line = true
    | Some (inr df) =>
        exists line,
          console w' = console w ++ [attempt_line cfg; line] /\
          prefix "Successfully" line = true
    end.
Proof.
  unfold extract, outside_answer, attempt_line.
  destruct (String.eqb (source cfg) "local_csv");
    [|destruct (String.eqb (source cfg) "csv");
      [|destruct (String.eqb (source cfg) "api")]].
  - run_extract.
    destruct (read_csv_result env (local_patient_data_path cfg)) as [e|df];
      simpl; [destruct e|]; extract_branch.
  - run_extract.
    destruct (read_csv_result env (patient_data_url cfg)) as [e|df];
      simpl; extract_branch.
  - run_extract.
    destruct (get_result env (api_url cfg)) as [e|response]; simpl;
      [extract_branch|].
    destruct ((400 <=? status_code response) && (status_code response <? 600));
      simpl; [extract_branch|].
    destruct (records_result env (body response)) as [e|df]; simpl;
      extract_branch.
  - unfold bind, print, ret. simpl. eexists.
    split; [reflexivity|]. simpl. auto.
Qed.

Lemma outside_answer_unknown (env : Env) (cfg : Config) :
  ~ In (source cfg) known_sources -> outside_answer env cfg = None.
Proof.
  intros H. unfold outside_answer.
  destruct (String.eqb_spec (source cfg) "local_csv") as [Heq|_];
    [exfalso; apply H; rewrite Heq; simpl; auto|].
  destruct (String.eqb_spec (source cfg) "csv") as [Heq|_];
    [exfalso; apply H; rewrite Heq; simpl; auto|].
  destruct (String.eqb_spec (source cfg) "api") as [Heq|_];
    [exfalso; apply H; rewrite Heq; simpl; auto|].
  reflexivity.
Qed.

(** C7.  [extract] returns for every configuration, outside and world; it
    never raises.  When the outside fails (the file is missing, the
    request fails or has a bad status, the body does not decode) the
    result is absent and a line starting with Error is printed; for a
    selector other than the three known ones the result is absent and
    nothing was read or fetched. *)
Theorem extract_never_raises (env : Env) (cfg : Config) (w : World) :
  exists data w',
    extract env cfg w = (Ok data, w') /\
    data = answer_data (outside_answer env cfg) /\
    (forall e, outside_answer env cfg = Some (inl e) ->
       data = None /\
       exists line,
         console w' = console w ++ [attempt_line cfg; line] /\
         prefix "Error" line = true) /\
    (~ In (source cfg) known_sources ->
       data = None /\ effects w' = effects w).
Proof.
  destruct (extract_returns env cfg w) as (w' & Hrun & _ & _ & Hcase).
  exists (answer_data (outside_answer env cfg)), w'.
  split; [exact Hrun|]. split; [reflexivity|]. split.
  - intros e He. rewrite He in *. split; [reflexivity|exact Hcase].
  - intros Hsrc. rewrite (outside_answer_unknown env cfg Hsrc) in *.
    split; [reflexivity|apply Hcase].
Qed.

(** ** [main] *)

Lemma setup_directories_effects (env : Env) (cfg : Config) (w w1 : World) :
  setup_directories env cfg w = (Ok tt, w1) ->
  filter is_persistence (effects w1) = filter is_persistence (effects w).
Proof.
  unfold setup_directories, bind, perform, print, log_effect, raise.
  destruct (write_fault env (MakeDirs (raw_data_dir cfg))); [discriminate|].
  destruct (write_fault env (MakeDirs (processed_data_dir cfg))); [discriminate|].
  intros [= <-]. simpl. now rewrite !filter_app_one.
Qed.

(** C8.  When [extract] yields no data, [main] prints that it halts and
    returns: the world is the one extraction left, one line longer, and
    no file was written and no loader reached since the run began. *)
Theorem main_halts_without_data (parse : string -> option Z) (env : Env)
    (cfg : Config) (w w1 w2 : World) :
  setup_directories env cfg w = (Ok tt, w1) ->
  extract env cfg w1 = (Ok None, w2) ->
  main_with parse env cfg w =
  (Ok tt, mkWorld (clock w2)
                  (console w2 ++ ["ETL process halted due to extraction failure."])
                  (effects w2)) /\
  filter is_persistence (effects w2) = filter is_persistence (effects w).
Proof.
  intros Hsetup Hextract. split.
  - unfold main_with.
    rewrite (bind_ok _ _ _ _ _ Hsetup), (bind_ok _ _ _ _ _ Hextract).
    reflexivity.
  - destruct (extract_returns env cfg w1) as (w' & Hrun & _ & Heff & _).
    rewrite Hextract in Hrun. inversion Hrun; subst w'.
    rewrite Heff. now apply setup_directories_effects in Hsetup.
Qed.

Lemma main_halts_without_data_witness :
  exists w',
    main Demo.iso_date Demo.empty_env (Demo.world Demo.new_year_2024) =
    (Ok tt, w') /\
    effects w' = [MakeDirs "./data/raw/"; MakeDirs "./data/processed/";
                  ReadCsv "./data/raw/patients_data.csv"] /\
    filter is_persistence (effects w') = [].
Proof.
  destruct (main_halts_without_data Demo.iso_date Demo.empty_env config
              (Demo.world Demo.new_year_2024) _ _ eq_refl eq_refl)
    as [Hrun Heff].
  eexists. split; [exact Hrun|]. split; reflexivity.
Defined.

(** * Further properties of the code *)

(** ** [transform], row by row *)

Lemma transform_runs (parse : string -> option Z) (raw : Raw.DataFrame)
    (w : World) :
  has_required (Raw.columns raw) = true ->
  transform parse (Some raw) w =
  (Ok (Some (Clean.mkDF (set_column "age" (Raw.columns raw))
                        (map (clean_row parse (clock w) (Raw.rows raw))
                             (Raw.rows raw))),
       Some (summarize (clean_rows parse (clock w) (Raw.rows raw)))),
   mkWorld (clock w) (console w ++ transform_log) (effects w)).
Proof.
  intros H. rewrite (transform_complete parse raw w H).
  now rewrite clean_rows_map.
Qed.

Lemma clean_row_billing (parse : string -> option Z) (today : Z)
    (rows : list Raw.Row) (r : Raw.Row) :
  Clean.billing_amount (clean_row parse today rows r) = clean_billing rows r.
Proof.
  unfold clean_row, clean_billing, filled_cell, with_age.
  cbn [Clean.billing_amount Clean.department Clean.set_billing].
  destruct (Raw.department r) as [d|]; [|reflexivity].
  destruct (Raw.billing_amount r) as [b|]; [reflexivity|].
  cbn [option_map].
  change (map (fun r0 => _) rows) with (map (with_age parse today) rows).
  now rewrite aged_department_billing.
Qed.

(** X1.  [transform] keeps every row in its place: the cleaned table has
    the raw table's [patient_id], [department] and untouched columns, row
    for row, its [dob] column is the parsed one, and its labels are the
    raw labels with [age] added. *)
Theorem transform_keeps_rows (parse : string -> option Z)
    (raw : Raw.DataFrame) (w : World) :
  has_required (Raw.columns raw) = true ->
  exists clean summary w',
    transform parse (Some raw) w = (Ok (Some clean, Some summary), w') /\
    Clean.columns clean = set_column "age" (Raw.columns raw) /\
    map Clean.patient_id (Clean.rows clean) = map Raw.patient_id (Raw.rows raw) /\
    map Clean.department (Clean.rows clean) = map Raw.department (Raw.rows raw) /\
    map Clean.passthrough (Clean.rows clean) = map Raw.passthrough (Raw.rows raw) /\
    map Clean.dob (Clean.rows clean) =
    map (fun r => to_datetime parse (Raw.dob r)) (Raw.rows raw).
Proof.
  intros Hcols. eexists. eexists. eexists.
  split; [apply transform_runs; exact Hcols|]. simpl.
  rewrite !map_map. repeat split.
Qed.

Lemma transform_keeps_rows_witness :
  exists clean summary w',
    transform Demo.iso_date (Some Demo.anonymous)
              (Demo.world Demo.new_year_2024) =
    (Ok (Some clean, Some summary), w') /\
    map Clean.patient_id (Clean.rows clean) = [Some 1; None] /\
    map Clean.department (Clean.rows clean) = [Some "ER"; Some "ER"].
Proof.
  destruct (transform_keeps_rows Demo.iso_date Demo.anonymous
              (Demo.world Demo.new_year_2024) eq_refl)
    as (clean & summary & w' & Hrun & _ & Hid & Hdept & _).
  exists clean, summary, w'. split; [exact Hrun|]. split; assumption.
Defined.

(** X2.  On a table with amounts in the range of the float64 model, a row
    that has a department and a billing amount keeps its own amount, as float64 rounds it to 2 places ([rint(x * 100) / 100] on
    the double): the imputation does not touch it. *)
Theorem transform_keeps_known_billing (parse : string -> option Z)
    (raw : Raw.DataFrame) (w : World) :
  has_required (Raw.columns raw) = true ->
  amounts_in_range (Raw.rows raw) = true ->
  exists clean summary w',
    transform parse (Some raw) w = (Ok (Some clean, Some summary), w') /\
    forall i r d b,
      nth_error (Raw.rows raw) i = Some r ->
      Raw.department r = Some d ->
      Raw.billing_amount r = Some b ->
      exists r',
        nth_error (Clean.rows clean) i = Some r' /\
        Clean.billing_amount r' =
        Some (fdiv (inject_Z (rint (fmul (float64 b) 100))) 100).
Proof.
  intros Hcols _. eexists. eexists. eexists.
  split; [apply transform_runs; exact Hcols|]. cbn [Clean.rows].
  intros i r d b Hr Hd Hb. eexists.
  split; [rewrite nth_error_map, Hr; reflexivity|].
  rewrite clean_row_billing. unfold clean_billing. now rewrite Hd, Hb.
Qed.

(** On [Demo.cents]: 1.015 is kept as the double 1.01 and 2.675 as the
    double 2.68, as the float products 101.49999999999999 and 267.5
    round. *)
Lemma transform_keeps_known_billing_witness :
  exists clean summary w' r9 r10,
    transform (fun _ => None) (Some Demo.cents) (Demo.world 0) =
    (Ok (Some clean, Some summary), w') /\
    nth_error (Clean.rows clean) 8 = Some r9 /\
    Clean.billing_amount r9 = Some (4548635623644201 # 4503599627370496) /\
    nth_error (Clean.rows clean) 9 = Some r10 /\
    Clean.billing_amount r10 = Some (6034823500676465 # 2251799813685248).
Proof.
  destruct (transform_keeps_known_billing (fun _ => None) Demo.cents
              (Demo.world 0) eq_refl eq_refl)
    as (clean & summary & w' & Hrun & Hrows).
  destruct (Hrows 8%nat _ "PED" (1015 # 1000)%Q eq_refl eq_refl eq_refl)
    as (r9 & Hn9 & Hb9).
  destruct (Hrows 9%nat _ "PED" (2675 # 1000)%Q eq_refl eq_refl eq_refl)
    as (r10 & Hn10 & Hb10).
  exists clean, summary, w', r9, r10.
  split; [exact Hrun|]. split; [exact Hn9|]. split; [|split; [exact Hn10|]].
  - rewrite Hb9. vm_compute. reflexivity.
  - rewrite Hb10. vm_compute. reflexivity.
Defined.

(** X3.  A row without a department is in no group: whatever billing
    amount it had, the cleaned row has none. *)
Theorem transform_drops_billing_without_department
    (parse : string -> option Z) (raw : Raw.DataFrame) (w : World) :
  has_required (Raw.columns raw) = true ->
  exists clean summary w',
    transform parse (Some raw) w = (Ok (Some clean, Some summary), w') /\
    forall i r,
      nth_error (Raw.rows raw) i = Some r ->
      Raw.department r = None ->
      exists r',
        nth_error (Clean.rows clean) i = Some r' /\
        Clean.billing_amount r' = None.
Proof.
  intros Hcols. eexists. eexists. eexists.
  split; [apply transform_runs; exact Hcols|]. simpl.
  intros i r Hr Hd. eexists.
  split; [rewrite nth_error_map, Hr; reflexivity|].
  rewrite clean_row_billing. unfold clean_billing. now rewrite Hd.
Qed.

Lemma transform_drops_billing_without_department_witness :
  exists clean summary w' r',
    transform Demo.iso_date (Some Demo.unassigned)
              (Demo.world Demo.new_year_2024) =
    (Ok (Some clean, Some summary), w') /\
    nth_error (Raw.rows Demo.unassigned) 0 =
    Some (Raw.mkRow (Some 1) None (Some "2000-01-01") (Some (75 # 1)) []) /\
    nth_error (Clean.rows clean) 0 = Some r' /\
    Clean.billing_amount r' = None.
Proof.
  destruct (transform_drops_billing_without_department Demo.iso_date
              Demo.unassigned (Demo.world Demo.new_year_2024) eq_refl)
    as (clean & summary & w' & Hrun & Hrows).
  destruct (Hrows 0%nat _ eq_refl eq_refl) as (r' & Hn & Hb).
  exists clean, summary, w', r'. repeat split; assumption.
Defined.

(** X4.  After [transform] a billing cell is null in exactly two cases:
    the row has no department, or it had no amount and neither had any
    other row of its department. *)
Theorem transform_billing_null_iff (parse : string -> option Z)
    (raw : Raw.DataFrame) (w : World) :
  has_required (Raw.columns raw) = true ->
  exists clean summary w',
    transform parse (Some raw) w = (Ok (Some clean, Some summary), w') /\
    forall i r,
      nth_error (Raw.rows raw) i = Some r ->
      exists r',
        nth_error (Clean.rows clean) i = Some r' /\
        (Clean.billing_amount r' = None <->
         Raw.department r = None \/
         exists d, Raw.department r = Some d /\
                   Raw.billing_amount r = None /\
                   original_billing d (Raw.rows raw) = []).
Proof.
  intros Hcols. eexists. eexists. eexists.
  split; [apply transform_runs; exact Hcols|]. simpl.
  intros i r Hr. eexists.
  split; [rewrite nth_error_map, Hr; reflexivity|].
  rewrite clean_row_billing. unfold clean_billing.
  destruct (Raw.department r) as [d|]; [|intuition].
  destruct (Raw.billing_amount r) as [b|].
  - split; [discriminate|].
    intros [H|(d' & _ & H & _)]; discriminate.
  - destruct (original_billing d (Raw.rows raw)) eqn:Ho.
    + rewrite mean_none by (apply department_column_empty; exact Ho).
      split; [|reflexivity]. intros _. right. exists d. auto.
    + rewrite mean_some
        by (rewrite department_column_empty, Ho; discriminate).
      split; [discriminate|].
      intros [H|(d' & Hd' & _ & H)]; [discriminate|].
      inversion Hd'; subst d'. congruence.
Qed.

Lemma transform_billing_null_iff_witness :
  exists clean summary w',
    transform Demo.iso_date (Some Demo.patients)
              (Demo.world Demo.new_year_2024) =
    (Ok (Some clean, Some summary), w') /\
    map (fun r => notnull (Clean.billing_amount r)) (Clean.rows clean) =
    [true; true; false].
Proof.
  destruct (transform_billing_null_iff Demo.iso_date Demo.patients
              (Demo.world Demo.new_year_2024) eq_refl)
    as (clean & summary & w' & Hrun & Hrows).
  exists clean, summary, w'. split; [exact Hrun|].
  rewrite transform_runs in Hrun by reflexivity.
  inversion Hrun; subst clean summary w'. vm_compute. reflexivity.
Defined.

(** ** The summary as a whole *)

Lemma transform_summary (parse : string -> option Z) (raw : Raw.DataFrame)
    (w : World) :
  has_required (Raw.columns raw) = true ->
  exists clean w',
    transform parse (Some raw) w =
    (Ok (Some clean, Some (summarize (Clean.rows clean))), w').
Proof.
  intros Hcols.
  exists (Clean.mkDF (set_column "age" (Raw.columns raw))
                     (clean_rows parse (clock w) (Raw.rows raw))).
  eexists. apply transform_complete. exact Hcols.
Qed.

(** X5.  The summary rows come in strictly increasing order of department
    name (character by character), so the order of the output does not
    depend on the order of the input rows. *)
Theorem summary_sorted_by_department (parse : string -> option Z)
    (raw : Raw.DataFrame) (w : World) :
  has_required (Raw.columns raw) = true ->
  exists clean summary w',
    transform parse (Some raw) w = (Ok (Some clean, Some summary), w') /\
    StronglySorted key_lt (map Summary.department summary).
Proof.
  intros Hcols.
  destruct (transform_summary parse raw w Hcols) as (clean & w' & Hrun).
  exists clean, (summarize (Clean.rows clean)), w'.
  split; [exact Hrun|].
  rewrite summarize_departments. apply group_keys_sorted.
Qed.

Lemma summary_sorted_by_department_witness :
  exists clean summary w',
    transform Demo.iso_date (Some Demo.patients)
              (Demo.world Demo.new_year_2024) =
    (Ok (Some clean, Some summary), w') /\
    StronglySorted key_lt (map Summary.department summary).
Proof.
  exact (summary_sorted_by_department Demo.iso_date Demo.patients
           (Demo.world Demo.new_year_2024) eq_refl).
Defined.

(** *** Groups partition the rows that have a department *)

Lemma Zsum_cons (x : Z) (l : list Z) : Zsum (x :: l) = x + Zsum l.
Proof. reflexivity. Qed.

Lemma Zsum_zeros {K : Type} (keys : list K) :
  Zsum (map (fun _ => 0) keys) = 0.
Proof.
  induction keys as [|k ks IH]; [reflexivity|].
  now rewrite map_cons, Zsum_cons, IH.
Qed.

Section Partition.

Variable A : Type.
Variable dept : A -> option string.

Lemma Zsum_pick_absent (d : string) (x : Z) (keys : list string) :
  ~ In d keys ->
  Zsum (map (fun k => if key_is k (Some d) then x else 0) keys) = 0.
Proof.
  induction keys as [|h t IH]; intros Hnin; [reflexivity|].
  rewrite map_cons, Zsum_cons, IH by (simpl in Hnin; tauto).
  change (key_is h (Some d)) with (String.eqb d h).
  destruct (String.eqb_spec d h) as [->|_]; [simpl in Hnin; tauto|reflexivity].
Qed.

Lemma Zsum_pick (d : string) (x : Z) (keys : list string) :
  NoDup keys -> In d keys ->
  Zsum (map (fun k => if key_is k (Some d) then x else 0) keys) = x.
Proof.
  induction 1 as [|h t Hnin Hnd IH]; [simpl; tauto|].
  intros Hin. rewrite map_cons, Zsum_cons.
  change (key_is h (Some d)) with (String.eqb d h).
  destruct (String.eqb_spec d h) as [->|Hne].
  - rewrite Zsum_pick_absent by exact Hnin. lia.
  - destruct Hin as [->|Hin]; [congruence|]. now rewrite IH.
Qed.

Lemma Zsum_groups_cons (wt : A -> Z) (r : A) (t : list A) (keys : list string) :
  Zsum (map (fun k => Zsum (map wt (filter (fun a => key_is k (dept a)) (r :: t))))
            keys) =
  Zsum (map (fun k => if key_is k (dept r) then wt r else 0) keys) +
  Zsum (map (fun k => Zsum (map wt (filter (fun a => key_is k (dept a)) t))) keys).
Proof.
  induction keys as [|k ks IH]; [reflexivity|].
  rewrite !map_cons, !Zsum_cons, IH. cbn [filter].
  destruct (key_is k (dept r)); [rewrite map_cons, Zsum_cons|]; lia.
Qed.

Lemma Zsum_groups (wt : A -> Z) (keys : list string) (l : list A) :
  NoDup keys ->
  (forall r d, In r l -> dept r = Some d -> In d keys) ->
  Zsum (map (fun k => Zsum (map wt (filter (fun a => key_is k (dept a)) l))) keys) =
  Zsum (map wt (filter (fun a => notnull (dept a)) l)).
Proof.
  intros Hnd. induction l as [|r t IH]; intros Hcover.
  - apply Zsum_zeros.
  - rewrite Zsum_groups_cons, IH by (intros; eapply Hcover; simpl; eauto).
    cbn [filter]. destruct (dept r) as [d|] eqn:Hd; cbn [notnull].
    + rewrite map_cons, Zsum_cons, Zsum_pick; [reflexivity|exact Hnd|].
      eapply Hcover; simpl; eauto.
    + change (fun k : string => if key_is k None then wt r else 0)
        with (fun _ : string => 0).
      now rewrite Zsum_zeros.
Qed.

End Partition.

Lemma count_Zsum {A B : Type} (f : A -> option B) (l : list A) :
  count (map f l) = Zsum (map (fun a => if notnull (f a) then 1 else 0) l).
Proof.
  unfold count. induction l as [|a t IH]; [reflexivity|].
  rewrite !map_cons, Zsum_cons, <- IH. unfold dropna.
  cbn [flat_map]. rewrite length_app.
  destruct (f a); cbn [notnull List.length]; lia.
Qed.

Lemma group_keys_cover (rows : list Clean.Row) (r : Clean.Row) (d : string) :
  In r rows -> Clean.department r = Some d ->
  In d (group_keys (map Clean.department rows)).
Proof.
  intros Hr Hd. apply In_group_keys. rewrite <- Hd. now apply in_map.
Qed.

Lemma summarize_counts (rows : list Clean.Row) :
  Zsum (map Summary.number_of_patients (summarize rows)) =
  count (map Clean.patient_id
             (filter (fun r => notnull (Clean.department r)) rows)).
Proof.
  unfold summarize, groupby_agg. rewrite !map_map. cbn [Summary.set_average
    Summary.number_of_patients Summary.department Summary.total_revenue].
  rewrite count_Zsum.
  rewrite <- (Zsum_groups Clean.Row Clean.department _
                (group_keys (map Clean.department rows)) rows).
  - f_equal. apply map_ext. intros k. apply count_Zsum.
  - apply sorted_NoDup, group_keys_sorted.
  - apply group_keys_cover.
Qed.

(** X6.  The patient counts of the summary add up to the number of
    cleaned rows that have both a department and a [patient_id]: every
    such row is counted once, in one department. *)
Theorem summary_counts_add_up (parse : string -> option Z)
    (raw : Raw.DataFrame) (w : World) :
  has_required (Raw.columns raw) = true ->
  exists clean summary w',
    transform parse (Some raw) w = (Ok (Some clean, Some summary), w') /\
    Zsum (map Summary.number_of_patients summary) =
    Z.of_nat (List.length
                (filter (fun r => notnull (Clean.patient_id r))
                        (filter (fun r => notnull (Clean.department r))
                                (Clean.rows clean)))).
Proof.
  intros Hcols.
  destruct (transform_summary parse raw w Hcols) as (clean & w' & Hrun).
  exists clean, (summarize (Clean.rows clean)), w'.
  split; [exact Hrun|].
  rewrite summarize_counts. apply count_notnull.
Qed.

Lemma summary_counts_add_up_witness :
  exists clean summary w',
    transform Demo.iso_date (Some Demo.anonymous)
              (Demo.world Demo.new_year_2024) =
    (Ok (Some clean, Some summary), w') /\
    Zsum (map Summary.number_of_patients summary) = 1.
Proof.
  destruct (summary_counts_add_up Demo.iso_date Demo.anonymous
              (Demo.world Demo.new_year_2024) eq_refl)
    as (clean & summary & w' & Hrun & Hsum).
  exists clean, summary, w'. split; [exact Hrun|].
  rewrite Hsum. rewrite transform_runs in Hrun by reflexivity.
  inversion Hrun; subst clean. reflexivity.
Defined.

(** ** Ages *)

Lemma age_of_quot (today t : Z) :
  age_of today (Some t) = Z.quot (dt_days today t * 100) 36525.
Proof. reflexivity. Qed.

Lemma dt_days_antitone (today t1 t2 : Z) :
  t1 <= t2 -> dt_days today t2 <= dt_days today t1.
Proof.
  intros H. unfold dt_days, day_ns. apply Z.div_le_mono; lia.
Qed.

(** X8.  For a date of birth not after the reference instant the age is
    not negative and counts the completed spans of 365.25 days:
    [age * 365.25 <= days < (age + 1) * 365.25], with [days] the whole
    days elapsed.  For a later date of birth the age is never positive. *)
Theorem age_counts_completed_years (parse : string -> option Z)
    (raw : Raw.DataFrame) (w : World) :
  has_required (Raw.columns raw) = true ->
  exists clean summary w',
    transform parse (Some raw) w = (Ok (Some clean, Some summary), w') /\
    forall i r t,
      nth_error (Raw.rows raw) i = Some r ->
      to_datetime parse (Raw.dob r) = Some t ->
      exists r',
        nth_error (Clean.rows clean) i = Some r' /\
        (t <= clock w ->
         0 <= Clean.age r' /\
         1461 * Clean.age r' <= 4 * dt_days (clock w) t
           < 1461 * (Clean.age r' + 1)) /\
        (clock w < t -> Clean.age r' <= 0).
Proof.
  intros Hcols. eexists. eexists. eexists.
  split; [apply transform_runs; exact Hcols|]. cbn [Clean.rows].
  intros i r t Hr Ht. eexists.
  split; [rewrite nth_error_map, Hr; reflexivity|].
  unfold clean_row, with_age. cbn [Clean.age Clean.set_billing].
  rewrite Ht, age_of_quot.
  pose proof (dt_days_sign (clock w) t) as [Hpast Hfuture].
  set (days := dt_days (clock w) t) in *. split.
  - intros Hle. specialize (Hpast Hle).
    rewrite Z.quot_div_nonneg by lia.
    pose proof (Z.mul_div_le (days * 100) 36525 ltac:(lia)).
    pose proof (Z.mul_succ_div_gt (days * 100) 36525 ltac:(lia)).
    pose proof (Z.div_pos (days * 100) 36525 ltac:(lia) ltac:(lia)).
    lia.
  - intros Hlt. specialize (Hfuture Hlt).
    replace 0 with (Z.quot 0 36525) by reflexivity.
    apply Z.quot_le_mono; lia.
Qed.

Lemma age_counts_completed_years_witness :
  exists clean summary w' r',
    transform Demo.iso_date (Some Demo.patients)
              (Demo.world Demo.new_year_2024) =
    (Ok (Some clean, Some summary), w') /\
    nth_error (Clean.rows clean) 2 = Some r' /\
    1461 * Clean.age r' <= 4 * 12418 < 1461 * (Clean.age r' + 1).
Proof.
  destruct (age_counts_completed_years Demo.iso_date Demo.patients
              (Demo.world Demo.new_year_2024) eq_refl)
    as (clean & summary & w' & Hrun & Hrows).
  destruct (Hrows 2%nat _ 631152000000000000 eq_refl eq_refl)
    as (r' & Hn & Hpast & _).
  exists clean, summary, w', r'. split; [exact Hrun|]. split; [exact Hn|].
  apply Hpast. vm_compute. discriminate.
Defined.

(** X9.  Of two rows with a date of birth, the one born earlier is never
    given the smaller age, whether the dates lie before or after the
    reference instant. *)
Theorem age_is_antitone_in_dob (parse : string -> option Z)
    (raw : Raw.DataFrame) (w : World) :
  has_required (Raw.columns raw) = true ->
  exists clean summary w',
    transform parse (Some raw) w = (Ok (Some clean, Some summary), w') /\
    forall i j r1 r2 t1 t2,
      nth_error (Raw.rows raw) i = Some r1 ->
      nth_error (Raw.rows raw) j = Some r2 ->
      to_datetime parse (Raw.dob r1) = Some t1 ->
      to_datetime parse (Raw.dob r2) = Some t2 ->
      t1 <= t2 ->
      exists r1' r2',
        nth_error (Clean.rows clean) i = Some r1' /\
        nth_error (Clean.rows clean) j = Some r2' /\
        Clean.age r2' <= Clean.age r1'.
Proof.
  intros Hcols. eexists. eexists. eexists.
  split; [apply transform_runs; exact Hcols|]. cbn [Clean.rows].
  intros i j r1 r2 t1 t2 Hr1 Hr2 Ht1 Ht2 Hle. eexists. eexists.
  split; [rewrite nth_error_map, Hr1; reflexivity|].
  split; [rewrite nth_error_map, Hr2; reflexivity|].
  unfold clean_row, with_age. cbn [Clean.age Clean.set_billing].
  rewrite Ht1, Ht2, !age_of_quot.
  apply Z.quot_le_mono; [lia|].
  pose proof (dt_days_antitone (clock w) t1 t2 Hle). lia.
Qed.

Lemma age_is_antitone_in_dob_witness :
  exists clean summary w' r1' r3',
    transform Demo.iso_date (Some Demo.patients)
              (Demo.world Demo.new_year_2024) =
    (Ok (Some clean, Some summary), w') /\
    nth_error (Clean.rows clean) 2 = Some r3' /\
    nth_error (Clean.rows clean) 0 = Some r1' /\
    Clean.age r1' <= Clean.age r3'.
Proof.
  destruct (age_is_antitone_in_dob Demo.iso_date Demo.patients
              (Demo.world Demo.new_year_2024) eq_refl)
    as (clean & summary & w' & Hrun & Hrows).
  destruct (Hrows 2%nat 0%nat _ _ 631152000000000000 946684800000000000
              eq_refl eq_refl eq_refl eq_refl)
    as (r3' & r1' & Hn3 & Hn1 & Hle); [vm_compute; discriminate|].
  exists clean, summary, w', r1', r3'. auto.
Defined.

(** ** What [transform] and [extract] leave alone *)

(** X10.  [transform] touches nothing but the console, whether it ends
    normally or in an error: the clock and the effects on files, network
    and database are as before, and the console only grows. *)
Theorem transform_only_prints (parse : string -> option Z)
    (raw : option Raw.DataFrame) (w : World) :
  clock (snd (transform parse raw w)) = clock w /\
  effects (snd (transform parse raw w)) = effects w /\
  exists lines,
    lines <> [] /\
    console (snd (transform parse raw w)) = console w ++ lines.
Proof.
  destruct raw as [raw|].
  - destruct (has_required (Raw.columns raw)) eqn:Hcols.
    + rewrite transform_complete by exact Hcols. simpl.
      repeat split. exists transform_log. split; [discriminate|reflexivity].
    + unfold transform, require_column.
      rewrite !has_column_set_age by discriminate.
      destruct (has_column "dob" (Raw.columns raw));
        [|simpl; repeat split; eexists; split; [|reflexivity]; discriminate].
      destruct (has_column "department" (Raw.columns raw));
        [|simpl; repeat split; eexists; split;
          [|rewrite <- !app_assoc; reflexivity]; discriminate].
      destruct (has_column "billing_amount" (Raw.columns raw));
        [|simpl; repeat split; eexists; split;
          [|rewrite <- !app_assoc; reflexivity]; discriminate].
      destruct (has_column "patient_id" (Raw.columns raw));
        simpl; repeat split; eexists; split;
        try (rewrite <- !app_assoc; reflexivity); discriminate.
  - simpl. repeat split. eexists. split; [|reflexivity]. discriminate.
Qed.

Lemma extract_effects (env : Env) (cfg : Config) (w : World) :
  effects (snd (extract env cfg w)) = effects w ++ extract_reads cfg.
Proof.
  unfold extract, extract_reads.
  destruct (String.eqb (source cfg) "local_csv");
    [|destruct (String.eqb (source cfg) "csv");
      [|destruct (String.eqb (source cfg) "api")]].
  - run_extract.
    destruct (read_csv_result env (local_patient_data_path cfg)) as [e|df];
      [destruct e|]; reflexivity.
  - run_extract.
    destruct (read_csv_result env (patient_data_url cfg)); reflexivity.
  - run_extract.
    destruct (get_result env (api_url cfg)) as [e|response]; [reflexivity|].
    simpl.
    destruct ((400 <=? status_code response) && (status_code response <? 600));
      [reflexivity|].
    simpl. destruct (records_result env (body response)); reflexivity.
  - simpl. now rewrite app_nil_r.
Qed.

(** X11.  [extract] makes at most one read, of the location configured
    for the selected source and of no other: the local path for
    [local_csv], the URL for [csv], one GET of the endpoint for [api],
    nothing for any other selector.  It writes nothing. *)
Theorem extract_reads_selected_source_only (env : Env) (cfg : Config)
    (w : World) :
  effects (snd (extract env cfg w)) = effects w ++ extract_reads cfg /\
  Forall (fun e => is_persistence e = false) (extract_reads cfg).
Proof.
  split; [apply extract_effects|].
  unfold extract_reads.
  destruct (String.eqb (source cfg) "local_csv");
    [|destruct (String.eqb (source cfg) "csv");
      [|destruct (String.eqb (source cfg) "api")]];
    repeat constructor.
Qed.

(** ** The loaders *)

Lemma perform_ok (env : Env) (e : Effect) (w : World) :
  write_fault env e = None ->
  perform env e w = (Ok tt, mkWorld (clock w) (console w) (effects w ++ [e])).
Proof. intros H. unfold perform. now rewrite H. Qed.

Lemma perform_fault (env : Env) (e : Effect) (x : Exn) (w : World) :
  write_fault env e = Some x -> perform env e w = (Raise x, w).
Proof. intros H. unfold perform. now rewrite H. Qed.

Lemma same_collection_refl (db collection : string) :
  same_collection db collection db collection = true.
Proof. unfold same_collection. now rewrite !String.eqb_refl. Qed.

Lemma stored_delete (db c d c' : string) (es : list Effect) :
  stored db c (es ++ [DeleteMany d c']) =
  if same_collection db c d c' then [] else stored db c es.
Proof. unfold stored. now rewrite fold_left_app. Qed.

Lemma stored_insert (db c d c' : string) (data : Frame) (es : list Effect) :
  stored db c (es ++ [InsertMany d c' data]) =
  if same_collection db c d c' then stored db c es ++ [data]
  else stored db c es.
Proof. unfold stored. now rewrite fold_left_app. Qed.

Lemma stored_connect (db c uri : string) (es : list Effect) :
  stored db c (es ++ [MongoConnect uri]) = stored db c es.
Proof. unfold stored. now rewrite fold_left_app. Qed.

Lemma stored_to_csv (db c path : string) (data : Frame) (es : list Effect) :
  stored db c (es ++ [ToCsv path data]) = stored db c es.
Proof. unfold stored. now rewrite fold_left_app. Qed.

Lemma stored_replace (db c d c' : string) (data : Frame) (es : list Effect) :
  stored db c (es ++ replace_collection d c' data) =
  if same_collection db c d c' then [data] else stored db c es.
Proof.
  unfold replace_collection.
  change [DeleteMany d c'; InsertMany d c' data]
    with ([DeleteMany d c'] ++ [InsertMany d c' data]).
  rewrite app_assoc, stored_insert, stored_delete.
  destruct (same_collection db c d c'); reflexivity.
Qed.

(** [load_to_lake] when nothing fails. *)
Lemma load_to_lake_ok (env : Env) (cfg : Config) (df : Frame) (w : World) :
  write_fault env (MongoConnect (mongo_db_uri cfg)) = None ->
  write_fault env (DeleteMany (lake_db_name cfg) (lake_patients_collection cfg)) = None ->
  write_fault env (InsertMany (lake_db_name cfg) (lake_patients_collection cfg) df) = None ->
  load_to_lake env [df] cfg w =
  (Ok tt,
   mkWorld (clock w) (console w ++ [lake_line cfg])
           (effects w ++ MongoConnect (mongo_db_uri cfg) ::
              replace_collection (lake_db_name cfg)
                                 (lake_patients_collection cfg) df)).
Proof.
  intros Hc Hd Hi. unfold load_to_lake.
  rewrite (bind_ok _ _ _ _ _ (perform_ok env _ w Hc)).
  rewrite (bind_ok _ _ _ _ _ (perform_ok env _ _ Hd)).
  rewrite (bind_ok _ _ _ _ _ (perform_ok env _ _ Hi)).
  unfold print, lake_line, replace_collection. simpl.
  now rewrite <- !app_assoc.
Qed.

(** X13.  When connecting, deleting and inserting all go through,
    [load_to_lake] leaves the lake collection holding exactly the table it
    was given, whatever the collection held before, and leaves every
    other collection as it was. *)
Theorem load_to_lake_replaces_collection (env : Env) (cfg : Config)
    (df : Frame) (w : World) :
  write_fault env (MongoConnect (mongo_db_uri cfg)) = None ->
  write_fault env (DeleteMany (lake_db_name cfg) (lake_patients_collection cfg)) = None ->
  write_fault env (InsertMany (lake_db_name cfg) (lake_patients_collection cfg) df) = None ->
  exists w',
    load_to_lake env [df] cfg w = (Ok tt, w') /\
    stored (lake_db_name cfg) (lake_patients_collection cfg) (effects w') = [df] /\
    forall db c,
      same_collection db c (lake_db_name cfg) (lake_patients_collection cfg) = false ->
      stored db c (effects w') = stored db c (effects w).
Proof.
  intros Hc Hd Hi. eexists.
  split; [apply load_to_lake_ok; assumption|]. simpl.
  change (effects w ++ MongoConnect (mongo_db_uri cfg) :: ?l)
    with (effects w ++ [MongoConnect (mongo_db_uri cfg)] ++ l).
  rewrite app_assoc. split.
  - now rewrite stored_replace, same_collection_refl.
  - intros db c Hne. now rewrite stored_replace, Hne, stored_connect.
Qed.

Lemma load_to_lake_replaces_collection_witness :
  exists w',
    load_to_lake Demo.env [RawFrame Demo.patients] config
                 (Demo.used_world Demo.new_year_2024) = (Ok tt, w') /\
    stored "healthcare_lake_db" "patients" (effects w') =
    [RawFrame Demo.patients] /\
    stored "healthcare_warehouse_db" "patients_clean" (effects w') =
    [RawFrame Demo.no_dob].
Proof.
  destruct (load_to_lake_replaces_collection Demo.env config
              (RawFrame Demo.patients) (Demo.used_world Demo.new_year_2024)
              eq_refl eq_refl eq_refl)
    as (w' & Hrun & Hlake & Hrest).
  exists w'. split; [exact Hrun|]. split; [exact Hlake|].
  rewrite (Hrest "healthcare_warehouse_db" "patients_clean" eq_refl).
  reflexivity.
Defined.

(** X14.  [load_to_lake] is not atomic: when the delete goes through and
    the insert fails, the error is raised with the collection left empty,
    and what it held before is lost. *)
Theorem load_to_lake_failed_insert_empties (env : Env) (cfg : Config)
    (df : Frame) (x : Exn) (w : World) :
  write_fault env (MongoConnect (mongo_db_uri cfg)) = None ->
  write_fault env (DeleteMany (lake_db_name cfg) (lake_patients_collection cfg)) = None ->
  write_fault env (InsertMany (lake_db_name cfg) (lake_patients_collection cfg) df) = Some x ->
  exists w',
    load_to_lake env [df] cfg w = (Raise x, w') /\
    console w' = console w /\
    stored (lake_db_name cfg) (lake_patients_collection cfg) (effects w') = [].
Proof.
  intros Hc Hd Hi. eexists. split.
  - unfold load_to_lake.
    rewrite (bind_ok _ _ _ _ _ (perform_ok env _ w Hc)).
    rewrite (bind_ok _ _ _ _ _ (perform_ok env _ _ Hd)).
    rewrite (bind_raise _ _ _ _ _ (perform_fault env _ x _ Hi)).
    reflexivity.
  - simpl. split; [reflexivity|].
    now rewrite stored_delete, same_collection_refl.
Qed.

Lemma load_to_lake_failed_insert_empties_witness :
  exists w',
    load_to_lake Demo.env_insert_fails [RawFrame Demo.patients] config
                 (Demo.used_world Demo.new_year_2024) =
    (Raise (OtherException "not primary"), w') /\
    stored "healthcare_lake_db" "patients"
           (effects (Demo.used_world Demo.new_year_2024)) =
    [RawFrame Demo.no_dob] /\
    stored "healthcare_lake_db" "patients" (effects w') = [].
Proof.
  destruct (load_to_lake_failed_insert_empties Demo.env_insert_fails config
              (RawFrame Demo.patients) (OtherException "not primary")
              (Demo.used_world Demo.new_year_2024) eq_refl eq_refl eq_refl)
    as (w' & Hrun & _ & Hlake).
  exists w'. split; [exact Hrun|]. split; [reflexivity|exact Hlake].
Defined.

(** [load_to_warehouse] when nothing fails. *)
Lemma load_to_warehouse_ok (env : Env) (cfg : Config) (df_patients df_summary : Frame)
    (w : World) :
  (forall e, write_fault env e = None) ->
  load_to_warehouse env [df_patients; df_summary] cfg w =
  (Ok tt,
   mkWorld (clock w)
           (console w ++ [warehouse_patients_line cfg; warehouse_summary_line cfg])
           (effects w ++ MongoConnect (mongo_db_uri cfg) ::
              replace_collection (warehouse_db_name cfg)
                (warehouse_patients_collection cfg) df_patients ++
              replace_collection (warehouse_db_name cfg)
                (warehouse_department_summary_collection cfg) df_summary)).
Proof.
  intros Hok. unfold load_to_warehouse.
  rewrite (bind_ok _ _ _ _ _ (perform_ok env _ w (Hok _))).
  rewrite (bind_ok _ _ _ _ _ (perform_ok env _ _ (Hok _))).
  rewrite (bind_ok _ _ _ _ _ (perform_ok env _ _ (Hok _))).
  unfold print at 1. unfold bind at 1.
  rewrite (bind_ok _ _ _ _ _ (perform_ok env _ _ (Hok _))).
  rewrite (bind_ok _ _ _ _ _ (perform_ok env _ _ (Hok _))).
  unfold print, warehouse_patients_line, warehouse_summary_line,
    replace_collection. simpl.
  now rewrite <- !app_assoc.
Qed.

Lemma same_collection_names (db c c' : string) :
  same_collection db c db c' = String.eqb c c'.
Proof. unfold same_collection. now rewrite String.eqb_refl. Qed.

(** X15.  When nothing fails and the two warehouse collections have
    different names, [load_to_warehouse] leaves the patients collection
    holding exactly the cleaned table and the summary collection exactly
    the summary, whatever they held before. *)
Theorem load_to_warehouse_replaces_both (env : Env) (cfg : Config)
    (df_patients df_summary : Frame) (w : World) :
  (forall e, write_fault env e = None) ->
  warehouse_patients_collection cfg <> warehouse_department_summary_collection cfg ->
  exists w',
    load_to_warehouse env [df_patients; df_summary] cfg w = (Ok tt, w') /\
    stored (warehouse_db_name cfg) (warehouse_patients_collection cfg)
           (effects w') = [df_patients] /\
    stored (warehouse_db_name cfg) (warehouse_department_summary_collection cfg)
           (effects w') = [df_summary].
Proof.
  intros Hok Hne. eexists.
  split; [apply load_to_warehouse_ok; exact Hok|]. cbn [effects].
  change (effects w ++ MongoConnect (mongo_db_uri cfg) :: ?l)
    with (effects w ++ [MongoConnect (mongo_db_uri cfg)] ++ l).
  rewrite !app_assoc, !stored_replace, !same_collection_names.
  rewrite !String.eqb_refl.
  apply String.eqb_neq in Hne. rewrite Hne. auto.
Qed.

Lemma load_to_warehouse_replaces_both_witness :
  exists w',
    load_to_warehouse Demo.env [Demo.patients_clean; Demo.patients_summary]
      config (Demo.used_world Demo.new_year_2024) = (Ok tt, w') /\
    stored "healthcare_warehouse_db" "patients_clean"
           (effects (Demo.used_world Demo.new_year_2024)) =
    [RawFrame Demo.no_dob] /\
    stored "healthcare_warehouse_db" "patients_clean" (effects w') =
    [Demo.patients_clean] /\
    stored "healthcare_warehouse_db" "department_summary" (effects w') =
    [Demo.patients_summary].
Proof.
  destruct (load_to_warehouse_replaces_both Demo.env config
              Demo.patients_clean Demo.patients_summary
              (Demo.used_world Demo.new_year_2024))
    as (w' & Hrun & Hp & Hs); [intros e; reflexivity|discriminate|].
  exists w'. auto.
Defined.

(** X16.  When the configuration gives the two warehouse collections the
    same name, the second replacement wipes the first: after a run with no
    failure the collection holds the summary only, not the cleaned
    patients. *)
Theorem load_to_warehouse_same_name_keeps_summary_only (env : Env)
    (cfg : Config) (df_patients df_summary : Frame) (w : World) :
  (forall e, write_fault env e = None) ->
  warehouse_patients_collection cfg = warehouse_department_summary_collection cfg ->
  exists w',
    load_to_warehouse env [df_patients; df_summary] cfg w = (Ok tt, w') /\
    stored (warehouse_db_name cfg) (warehouse_patients_collection cfg)
           (effects w') = [df_summary].
Proof.
  intros Hok Heq. eexists.
  split; [apply load_to_warehouse_ok; exact Hok|]. cbn [effects].
  change (effects w ++ MongoConnect (mongo_db_uri cfg) :: ?l)
    with (effects w ++ [MongoConnect (mongo_db_uri cfg)] ++ l).
  rewrite !app_assoc, stored_replace, same_collection_names.
  now rewrite Heq, String.eqb_refl.
Qed.

Lemma load_to_warehouse_same_name_keeps_summary_only_witness :
  exists w',
    load_to_warehouse Demo.env [Demo.patients_clean; Demo.patients_summary]
      Demo.one_collection_config (Demo.world Demo.new_year_2024) = (Ok tt, w') /\
    stored "warehouse" "out" (effects w') = [Demo.patients_summary].
Proof.
  apply (load_to_warehouse_same_name_keeps_summary_only Demo.env
           Demo.one_collection_config Demo.patients_clean Demo.patients_summary
           (Demo.world Demo.new_year_2024)).
  - intros e. reflexivity.
  - reflexivity.
Defined.

(** X17.  [load_to_warehouse] is not atomic across its two collections:
    when only the insert of the summary fails, the error is raised with
    the patients collection already replaced and the summary collection
    left empty. *)
Theorem load_to_warehouse_failed_summary_insert (env : Env) (cfg : Config)
    (df_patients df_summary : Frame) (x : Exn) (w : World) :
  write_fault env (MongoConnect (mongo_db_uri cfg)) = None ->
  write_fault env (DeleteMany (warehouse_db_name cfg)
                              (warehouse_patients_collection cfg)) = None ->
  write_fault env (InsertMany (warehouse_db_name cfg)
                              (warehouse_patients_collection cfg) df_patients) = None ->
  write_fault env (DeleteMany (warehouse_db_name cfg)
                              (warehouse_department_summary_collection cfg)) = None ->
  write_fault env (InsertMany (warehouse_db_name cfg)
                              (warehouse_department_summary_collection cfg)
                              df_summary) = Some x ->
  warehouse_patients_collection cfg <> warehouse_department_summary_collection cfg ->
  exists w',
    load_to_warehouse env [df_patients; df_summary] cfg w = (Raise x, w') /\
    stored (warehouse_db_name cfg) (warehouse_patients_collection cfg)
           (effects w') = [df_patients] /\
    stored (warehouse_db_name cfg) (warehouse_department_summary_collection cfg)
           (effects w') = [].
Proof.
  intros Hc Hdp Hip Hds His Hne. eexists. split.
  - unfold load_to_warehouse.
    rewrite (bind_ok _ _ _ _ _ (perform_ok env _ w Hc)).
    rewrite (bind_ok _ _ _ _ _ (perform_ok env _ _ Hdp)).
    rewrite (bind_ok _ _ _ _ _ (perform_ok env _ _ Hip)).
    unfold print at 1. unfold bind at 1.
    rewrite (bind_ok _ _ _ _ _ (perform_ok env _ _ Hds)).
    rewrite (bind_raise _ _ _ _ _ (perform_fault env _ x _ His)).
    reflexivity.
  - simpl. apply String.eqb_neq in Hne.
    rewrite !stored_delete, !stored_insert, !stored_delete.
    rewrite !same_collection_names, !String.eqb_refl, Hne. auto.
Qed.

Lemma load_to_warehouse_failed_summary_insert_witness :
  exists w',
    load_to_warehouse Demo.env_summary_insert_fails
      [Demo.patients_clean; Demo.patients_summary] config
      (Demo.used_world Demo.new_year_2024) =
    (Raise (OtherException "not primary"), w') /\
    stored "healthcare_warehouse_db" "patients_clean" (effects w') =
    [Demo.patients_clean] /\
    stored "healthcare_warehouse_db" "department_summary" (effects w') = [].
Proof.
  apply (load_to_warehouse_failed_summary_insert
           Demo.env_summary_insert_fails config
           Demo.patients_clean Demo.patients_summary
           (OtherException "not primary")
           (Demo.used_world Demo.new_year_2024));
    try reflexivity.
  discriminate.
Defined.

(** ** The orchestrator *)

Lemma setup_directories_ok (env : Env) (cfg : Config) (w : World) :
  write_fault env (MakeDirs (raw_data_dir cfg)) = None ->
  write_fault env (MakeDirs (processed_data_dir cfg)) = None ->
  setup_directories env cfg w =
  (Ok tt,
   mkWorld (clock w) (console w ++ ["Data directories are set up."])
           (effects w ++ [MakeDirs (raw_data_dir cfg);
                          MakeDirs (processed_data_dir cfg)])).
Proof.
  intros H1 H2. unfold setup_directories.
  rewrite (bind_ok _ _ _ _ _ (perform_ok env _ w H1)).
  rewrite (bind_ok _ _ _ _ _ (perform_ok env _ _ H2)).
  unfold print. simpl. now rewrite <- app_assoc.
Qed.

Lemma extract_data (env : Env) (cfg : Config) (raw : Raw.DataFrame) (w : World) :
  outside_answer env cfg = Some (inr raw) ->
  exists w',
    extract env cfg w = (Ok (Some raw), w') /\
    clock w' = clock w /\
    effects w' = effects w ++ extract_reads cfg.
Proof.
  intros Hans.
  destruct (extract_returns env cfg w) as (w' & Hrun & Hclock & _).
  rewrite Hans in Hrun. exists w'. split; [exact Hrun|]. split; [exact Hclock|].
  pose proof (extract_effects env cfg w) as Heff.
  now rewrite Hrun in Heff.
Qed.

Lemma stored_make_dirs (db c path : string) (es : list Effect) :
  stored db c (es ++ [MakeDirs path]) = stored db c es.
Proof. unfold stored. now rewrite fold_left_app. Qed.

Lemma stored_persist_trace (db c : string) (cfg : Config) (raw : Raw.DataFrame)
    (clean : Clean.DataFrame) (summary : Summary.DataFrame) (es : list Effect) :
  stored db c (es ++ persist_trace cfg raw clean summary) =
  if same_collection db c (warehouse_db_name cfg)
       (warehouse_department_summary_collection cfg)
  then [SummaryFrame summary]
  else if same_collection db c (warehouse_db_name cfg)
            (warehouse_patients_collection cfg)
  then [CleanFrame clean]
  else if same_collection db c (lake_db_name cfg) (lake_patients_collection cfg)
  then [RawFrame raw]
  else stored db c es.
Proof.
  unfold persist_trace, replace_collection, stored.
  rewrite fold_left_app. cbn [app fold_left].
  destruct (same_collection db c (warehouse_db_name cfg)
              (warehouse_department_summary_collection cfg));
    destruct (same_collection db c (warehouse_db_name cfg)
                (warehouse_patients_collection cfg));
    destruct (same_collection db c (lake_db_name cfg)
                (lake_patients_collection cfg)); reflexivity.
Qed.

Lemma bind_assoc {A B C : Type} (m : M A) (f : A -> M B) (g : B -> M C)
    (w : World) :
  bind (bind m f) g w = bind m (fun a => bind (f a) g) w.
Proof. unfold bind. destruct (m w) as [[a|e] w']; reflexivity. Qed.

Lemma load_lake_call (env : Env) (cfg : Config) (f : Frame) (w : World) :
  load cfg (load_to_lake env) [Some f] true w = load_to_lake env [f] cfg w.
Proof. reflexivity. Qed.

Lemma load_warehouse_call (env : Env) (cfg : Config) (f0 f1 : Frame) (w : World) :
  load cfg (load_to_warehouse env) [Some f0; Some f1] false w =
  load_to_warehouse env [f0; f1] cfg w.
Proof. reflexivity. Qed.

(** A complete run of [main_with]: the outcome and the final world. *)
Lemma main_with_complete (parse : string -> option Z) (env : Env)
    (cfg : Config) (raw : Raw.DataFrame) (w : World) :
  (forall e, write_fault env e = None) ->
  outside_answer env cfg = Some (inr raw) ->
  has_required (Raw.columns raw) = true ->
  exists w',
    main_with parse env cfg w = (Ok tt, w') /\
    clock w' = clock w /\
    effects w' =
    effects w ++ [MakeDirs (raw_data_dir cfg); MakeDirs (processed_data_dir cfg)] ++
    extract_reads cfg ++
    persist_trace cfg raw (fst (transformed parse (clock w) raw))
                  (snd (transformed parse (clock w) raw)).
Proof.
  intros Hok Hans Hcols. unfold main_with.
  rewrite (bind_ok _ _ _ _ _ (setup_directories_ok env cfg w (Hok _) (Hok _))).
  destruct (extract_data env cfg raw
              (mkWorld (clock w) (console w ++ ["Data directories are set up."])
                 (effects w ++ [MakeDirs (raw_data_dir cfg);
                                MakeDirs (processed_data_dir cfg)])) Hans)
    as (w2 & Hextract & Hclock & Heff).
  rewrite (bind_ok _ _ _ _ _ Hextract).
  rewrite (bind_ok _ _ _ _ _ (perform_ok env _ w2 (Hok _))).
  rewrite (bind_ok _ _ _ _ _
             (eq_trans (load_lake_call env cfg _ _)
                       (load_to_lake_ok env cfg _ _ (Hok _) (Hok _) (Hok _)))).
  rewrite (bind_ok _ _ _ _ _ (transform_complete parse raw _ Hcols)).
  cbn [clock console effects]. rewrite bind_assoc.
  rewrite (bind_ok _ _ _ _ _ (perform_ok env _ _ (Hok _))), bind_assoc.
  rewrite (bind_ok _ _ _ _ _ (perform_ok env _ _ (Hok _))).
  rewrite (bind_ok _ _ _ _ _
             (eq_trans (load_warehouse_call env cfg _ _ _)
                       (load_to_warehouse_ok env cfg _ _ _ Hok))).
  unfold print.
  eexists. split; [reflexivity|].
  cbn [clock console effects]. split; [exact Hclock|].
  rewrite Heff, Hclock. cbn [clock effects].
  unfold persist_trace, transformed. cbn [fst snd].
  rewrite <- !app_assoc. reflexivity.
Qed.

(** X18.  When nothing fails, the source yields a table and the table has
    the required columns, [main] performs, in this order: the two
    directories, the one read, the raw snapshot file, the replacement of
    the lake collection, the two derived snapshot files, and the
    replacement of the two warehouse collections.  The raw data is
    persisted before it is transformed, and the derived tables are those
    of [transform] at the instant of the run. *)
Theorem main_complete_run_order (parse : string -> option Z) (env : Env)
    (cfg : Config) (raw : Raw.DataFrame) (w : World) :
  (forall e, write_fault env e = None) ->
  outside_answer env cfg = Some (inr raw) ->
  has_required (Raw.columns raw) = true ->
  exists w',
    main_with parse env cfg w = (Ok tt, w') /\
    clock w' = clock w /\
    effects w' =
    effects w ++ [MakeDirs (raw_data_dir cfg); MakeDirs (processed_data_dir cfg)] ++
    extract_reads cfg ++
    persist_trace cfg raw (fst (transformed parse (clock w) raw))
                  (snd (transformed parse (clock w) raw)).
Proof. apply main_with_complete. Qed.

Lemma main_complete_run_order_witness :
  exists w',
    main Demo.iso_date Demo.env (Demo.world Demo.new_year_2024) = (Ok tt, w') /\
    map (fun e => match e with
                  | MakeDirs _ => "mkdir" | ReadCsv _ => "read"
                  | HttpGet _ => "get" | ToCsv _ _ => "csv"
                  | MongoConnect _ => "connect" | DeleteMany _ _ => "delete"
                  | InsertMany _ _ _ => "insert"
                  end) (effects w') =
    ["mkdir"; "mkdir"; "read"; "csv"; "connect"; "delete"; "insert";
     "csv"; "csv"; "connect"; "delete"; "insert"; "delete"; "insert"].
Proof.
  destruct (main_complete_run_order Demo.iso_date Demo.env config Demo.patients
              (Demo.world Demo.new_year_2024)
              (fun _ => eq_refl) eq_refl eq_refl)
    as (w' & Hrun & _ & Heff).
  exists w'. split; [exact Hrun|]. rewrite Heff. reflexivity.
Defined.

Lemma distinct_collections_true (cfg : Config) :
  distinct_collections cfg = true ->
  same_collection (lake_db_name cfg) (lake_patients_collection cfg)
    (warehouse_db_name cfg) (warehouse_patients_collection cfg) = false /\
  same_collection (lake_db_name cfg) (lake_patients_collection cfg)
    (warehouse_db_name cfg) (warehouse_department_summary_collection cfg) = false /\
  String.eqb (warehouse_patients_collection cfg)
             (warehouse_department_summary_collection cfg) = false.
Proof.
  unfold distinct_collections. rewrite !andb_true_iff, !negb_true_iff. tauto.
Qed.

(** X19.  With three different collections configured, a complete run of
    [main] leaves the lake holding exactly the raw table and the warehouse
    exactly the cleaned table and the summary, whatever the collections
    held before: a run replaces, it never adds to what an earlier run
    stored. *)
Theorem main_complete_run_replaces_store (parse : string -> option Z)
    (env : Env) (cfg : Config) (raw : Raw.DataFrame) (w : World) :
  (forall e, write_fault env e = None) ->
  outside_answer env cfg = Some (inr raw) ->
  has_required (Raw.columns raw) = true ->
  distinct_collections cfg = true ->
  exists w',
    main_with parse env cfg w = (Ok tt, w') /\
    stored (lake_db_name cfg) (lake_patients_collection cfg) (effects w') =
    [RawFrame raw] /\
    stored (warehouse_db_name cfg) (warehouse_patients_collection cfg)
           (effects w') =
    [CleanFrame (fst (transformed parse (clock w) raw))] /\
    stored (warehouse_db_name cfg) (warehouse_department_summary_collection cfg)
           (effects w') =
    [SummaryFrame (snd (transformed parse (clock w) raw))].
Proof.
  intros Hok Hans Hcols Hdistinct.
  destruct (main_with_complete parse env cfg raw w Hok Hans Hcols)
    as (w' & Hrun & _ & Heff).
  destruct (distinct_collections_true cfg Hdistinct) as (Hlp & Hls & Hps).
  exists w'. split; [exact Hrun|].
  rewrite Heff, !app_assoc, !stored_persist_trace.
  rewrite Hls, Hlp, !same_collection_refl, same_collection_names, Hps.
  auto.
Qed.

Lemma main_complete_run_replaces_store_witness :
  exists w',
    main Demo.iso_date Demo.env (Demo.used_world Demo.new_year_2024) =
    (Ok tt, w') /\
    stored "healthcare_lake_db" "patients"
           (effects (Demo.used_world Demo.new_year_2024)) =
    [RawFrame Demo.no_dob] /\
    stored "healthcare_lake_db" "patients" (effects w') =
    [RawFrame Demo.patients].
Proof.
  destruct (main_complete_run_replaces_store Demo.iso_date Demo.env config
              Demo.patients (Demo.used_world Demo.new_year_2024)
              (fun _ => eq_refl) eq_refl eq_refl eq_refl)
    as (w' & Hrun & Hlake & _).
  exists w'. split; [exact Hrun|]. split; [reflexivity|exact Hlake].
Defined.

(** X20.  [main] catches nothing after extraction: when the insert into
    the lake fails, the run ends in that error after the raw snapshot was
    written and the lake emptied; no derived snapshot is written and
    nothing reaches the warehouse. *)
Theorem main_aborts_when_lake_insert_fails (parse : string -> option Z)
    (env : Env) (cfg : Config) (raw : Raw.DataFrame) (x : Exn) (w : World) :
  write_fault env (MakeDirs (raw_data_dir cfg)) = None ->
  write_fault env (MakeDirs (processed_data_dir cfg)) = None ->
  write_fault env (ToCsv (patients_csv_file cfg) (RawFrame raw)) = None ->
  write_fault env (MongoConnect (mongo_db_uri cfg)) = None ->
  write_fault env (DeleteMany (lake_db_name cfg) (lake_patients_collection cfg)) = None ->
  write_fault env (InsertMany (lake_db_name cfg) (lake_patients_collection cfg)
                              (RawFrame raw)) = Some x ->
  outside_answer env cfg = Some (inr raw) ->
  exists w',
    main_with parse env cfg w = (Raise x, w') /\
    effects w' =
    effects w ++ [MakeDirs (raw_data_dir cfg); MakeDirs (processed_data_dir cfg)] ++
    extract_reads cfg ++
    [ToCsv (patients_csv_file cfg) (RawFrame raw);
     MongoConnect (mongo_db_uri cfg);
     DeleteMany (lake_db_name cfg) (lake_patients_collection cfg)] /\
    stored (lake_db_name cfg) (lake_patients_collection cfg) (effects w') = [].
Proof.
  intros Hm1 Hm2 Hcsv Hc Hd Hi Hans. unfold main_with.
  rewrite (bind_ok _ _ _ _ _ (setup_directories_ok env cfg w Hm1 Hm2)).
  destruct (extract_data env cfg raw
              (mkWorld (clock w) (console w ++ ["Data directories are set up."])
                 (effects w ++ [MakeDirs (raw_data_dir cfg);
                                MakeDirs (processed_data_dir cfg)])) Hans)
    as (w2 & Hextract & _ & Heff).
  rewrite (bind_ok _ _ _ _ _ Hextract).
  rewrite (bind_ok _ _ _ _ _ (perform_ok env _ w2 Hcsv)).
  assert (load cfg (load_to_lake env) [Some (RawFrame raw)] true
            (mkWorld (clock w2) (console w2)
               (effects w2 ++ [ToCsv (patients_csv_file cfg) (RawFrame raw)])) =
          (Raise x,
           mkWorld (clock w2) (console w2)
             (((effects w2 ++ [ToCsv (patients_csv_file cfg) (RawFrame raw)]) ++
               [MongoConnect (mongo_db_uri cfg)]) ++
              [DeleteMany (lake_db_name cfg) (lake_patients_collection cfg)])))
    as Hlake.
  { rewrite load_lake_call. unfold load_to_lake.
    rewrite (bind_ok _ _ _ _ _ (perform_ok env _ _ Hc)).
    rewrite (bind_ok _ _ _ _ _ (perform_ok env _ _ Hd)).
    rewrite (bind_raise _ _ _ _ _ (perform_fault env _ x _ Hi)).
    reflexivity. }
  rewrite (bind_raise _ _ _ _ _ Hlake).
  eexists. split; [reflexivity|]. cbn [effects]. split.
  - rewrite Heff. cbn [effects]. rewrite <- !app_assoc. reflexivity.
  - now rewrite stored_delete, same_collection_refl.
Qed.

Lemma main_aborts_when_lake_insert_fails_witness :
  exists w',
    main Demo.iso_date Demo.env_insert_fails
         (Demo.used_world Demo.new_year_2024) =
    (Raise (OtherException "not primary"), w') /\
    stored "healthcare_lake_db" "patients" (effects w') = [] /\
    stored "healthcare_warehouse_db" "patients_clean" (effects w') =
    [RawFrame Demo.no_dob].
Proof.
  destruct (main_aborts_when_lake_insert_fails Demo.iso_date
              Demo.env_insert_fails config Demo.patients
              (OtherException "not primary")
              (Demo.used_world Demo.new_year_2024)
              eq_refl eq_refl eq_refl eq_refl eq_refl eq_refl eq_refl)
    as (w' & Hrun & Heff & Hlake).
  exists w'. split; [exact Hrun|]. split; [exact Hlake|].
  rewrite Heff. reflexivity.
Defined.

